(** * Chat Document Assistant with Snowflake Cortex (app.py)

    A shallow embedding of the Streamlit script: Python strings are byte
    strings, the script's effects (session state, the Snowflake cursor, the
    scratch-file system and the page) are threaded through a small
    state-and-exception monad, and the remote service is an arbitrary
    oracle answering each statement the cursor executes. *)

From Stdlib Require Import String Ascii List ZArith Lia Bool Arith.
From Stdlib Require Import DecimalString.
Import ListNotations.
Local Open Scope string_scope.

(** ** Python strings *)

Module PyStr.

Definition quote : ascii := "'"%char.
Definition dquote : ascii := ascii_of_nat 34.
Definition backslash : ascii := ascii_of_nat 92.

(** [s.replace(old, new)] where [old] is one character long, as at every
    call site of the script. *)
Fixpoint replace (old : ascii) (new : string) (s : string) : string :=
  match s with
  | EmptyString => EmptyString
  | String c t =>
      if Ascii.eqb c old then new ++ replace old new t
      else String c (replace old new t)
  end.

Fixpoint count (c : ascii) (s : string) : nat :=
  match s with
  | EmptyString => 0
  | String d t => (if Ascii.eqb d c then 1 else 0) + count c t
  end.

(** [c in s] *)
Fixpoint mem (c : ascii) (s : string) : bool :=
  match s with
  | EmptyString => false
  | String d t => Ascii.eqb d c || mem c t
  end.

(** [pat in s] for strings *)
Fixpoint contains (pat s : string) : bool :=
  match s with
  | EmptyString => prefix pat EmptyString
  | String _ t => prefix pat s || contains pat t
  end.

(** [sep.join(l)] *)
Definition join (sep : string) (l : list string) : string := String.concat sep l.

(** [str(n)] for an int *)
Definition of_int (n : Z) : string := NilZero.string_of_int (Z.to_int n).

Definition hex_digit (n : nat) : ascii :=
  if (n <? 10)%nat then ascii_of_nat (48 + n) else ascii_of_nat (87 + n).

(** [n] in [k] lower-case hexadecimal digits *)
Fixpoint hex (k : nat) (n : N) : string :=
  match k with
  | O => EmptyString
  | S k' => hex k' (n / 16)%N ++ String (hex_digit (N.to_nat (n mod 16)%N)) EmptyString
  end.

(** The escape [repr] writes for a character it does not print *)
Definition escape (cp : N) : string :=
  if (cp <? 256)%N then String backslash (String "x" (hex 2 cp))
  else if (cp <? 65536)%N then String backslash (String "u" (hex 4 cp))
  else String backslash (String "U" (hex 8 cp)).

(** One ASCII character of [repr(s)] *)
Definition repr_char (q : ascii) (c : ascii) : string :=
  let n := nat_of_ascii c in
  if Ascii.eqb c q || Ascii.eqb c backslash then String backslash (String c EmptyString)
  else if (n =? 9)%nat then String backslash "t"
  else if (n =? 10)%nat then String backslash "n"
  else if (n =? 13)%nat then String backslash "r"
  else if ((n <? 32) || (n =? 127))%nat then escape (N_of_ascii c)
  else String c EmptyString.

(** A str is held as its UTF-8 bytes. [cont c]: [c] continues a
    character; [low c]: the six bits it carries. *)
Definition cont (c : ascii) : bool :=
  ((128 <=? N_of_ascii c) && (N_of_ascii c <? 192))%N.

Definition low (c : ascii) : N := (N_of_ascii c - 128)%N.

(** The number of bytes of the first character of [s]; a byte that starts
    no well-formed character counts as one (no str has such bytes). *)
Definition utf8_len (s : string) : nat :=
  match s with
  | EmptyString => 0
  | String a t =>
      let n := N_of_ascii a in
      if (n <? 192)%N then 1
      else if (n <? 224)%N then
        match t with
        | String b _ => if cont b then 2 else 1
        | _ => 1
        end
      else if (n <? 240)%N then
        match t with
        | String b (String c _) => if cont b && cont c then 3 else 1
        | _ => 1
        end
      else if (n <? 248)%N then
        match t with
        | String b (String c (String d _)) => if cont b && cont c && cont d then 4 else 1
        | _ => 1
        end
      else 1
  end.

(** A character from 128 up, of code point [cp] and bytes [bytes]: kept
    when the interpreter's Unicode table has it printable, escaped
    otherwise. *)
Definition repr_wide (printable : N -> bool) (cp : N) (bytes : string) : string :=
  if printable cp then bytes else escape cp.

(** The characters of [repr(s)] between its quotes; [printable] is the
    interpreter's table of printable code points, asked from 128 up. *)
Fixpoint repr_body (printable : N -> bool) (q : ascii) (s : string) : string :=
  match utf8_len s, s with
  | 4, String a (String b (String c (String d t))) =>
      repr_wide printable
        ((((N_of_ascii a - 240) * 64 + low b) * 64 + low c) * 64 + low d)%N
        (String a (String b (String c (String d EmptyString))))
      ++ repr_body printable q t
  | 3, String a (String b (String c t)) =>
      repr_wide printable (((N_of_ascii a - 224) * 64 + low b) * 64 + low c)%N
        (String a (String b (String c EmptyString)))
      ++ repr_body printable q t
  | 2, String a (String b t) =>
      repr_wide printable ((N_of_ascii a - 192) * 64 + low b)%N
        (String a (String b EmptyString))
      ++ repr_body printable q t
  | _, String a t =>
      (if (N_of_ascii a <? 128)%N then repr_char q a else escape (N_of_ascii a))
      ++ repr_body printable q t
  | _, EmptyString => EmptyString
  end.

(** [repr(s)]: single quotes, unless [s] has a single quote and no double
    quote. *)
Definition repr (printable : N -> bool) (s : string) : string :=
  let q := if mem quote s && negb (mem dquote s) then dquote else quote in
  String q (repr_body printable q s ++ String q EmptyString).

(** [repr] of a str of printable characters *)
Definition repr_plain (s : string) : string := repr (fun _ => true) s.

(** [str(l)] for a list of strings *)
Definition repr_list (printable : N -> bool) (l : list string) : string :=
  "[" ++ join ", " (map (repr printable) l) ++ "]".

(** Truth value of a string *)
Definition truthy (s : string) : bool :=
  match s with EmptyString => false | _ => true end.

End PyStr.

(** ** Exceptions, all of them subclasses of [Exception] *)

Inductive exn_class :=
| TypeError | AttributeError | KeyError | ValueError | IndexError
| UnboundLocalError | OSError | FileNotFoundError | ProgrammingError.

Record exn := mkExn { exn_class_of : exn_class; exn_str : string }.

Inductive outcome (A : Type) :=
| Ret (a : A)
| Raise (e : exn).
Arguments Ret {A} a.
Arguments Raise {A} e.

(** ** Values the service returns and pandas frames *)

Inductive cell :=
| CStr (s : string)
| CNull.

Definition row := list cell.

Record result_set := mkResult {
  rs_description : list string;   (* column names, [cursor.description] *)
  rs_rows : list row
}.

Inductive exec_result :=
| ExecError (message : string)
| ExecOk (rs : result_set).

(** ** Conversation state *)

Inductive role := user | assistant.

Definition role_str (r : role) : string :=
  match r with user => "user" | assistant => "assistant" end.

Definition role_eqb (a b : role) : bool :=
  match a, b with
  | user, user | assistant, assistant => true
  | _, _ => false
  end.

Record message := mkMessage { msg_role : role; content : string }.

Record session_state := mkSession {
  messages : option (list message);   (* [None]: the key is absent *)
  model_name : string;
  use_chat_history : bool;
  debug : bool;
  clear_conversation : bool
}.

(** ** The world the script runs in *)

Record uploaded_file := mkUpload { uf_name : string; uf_bytes : list Byte.byte }.

(** What [tempfile.NamedTemporaryFile] and the write into it will do:
    [tmp_path = None] when the file cannot be created. *)
Record tmp_env := mkTmp { tmp_path : option string; tmp_write_ok : bool }.

Inductive ui_event :=
| UiTitle (s : string)
| UiWrite (s : string)
| UiError (s : string)
| UiSuccess (s : string)
| UiMarkdown (s : string)
| UiDataframe (l : list cell)
| UiChatMessage (r : string)
| UiSpinner (s : string)
| UiSidebarText (s : string)
| UiSidebarCaption (s : string).

Record world := mkWorld {
  session : session_state;                 (* [st.session_state] *)
  connected : bool;                        (* the global [cursor] is not None *)
  service : nat -> string -> exec_result;  (* answer to the n-th statement *)
  executed : list string;                  (* statements given to [cursor.execute],
                                              accepted or not *)
  fetched : option result_set;             (* result the cursor holds *)
  disk : list (string * list Byte.byte);   (* scratch files *)
  tmp : tmp_env;
  temp_file_path : option string;          (* local of [upload_to_snowflake] *)
  ui : list ui_event;                      (* what the page shows, oldest first *)
  unicode_printable : N -> bool            (* the interpreter's table of printable
                                              code points, which [repr] asks *)
}.

Definition with_session (f : session_state -> session_state) (w : world) : world :=
  mkWorld (f (session w)) (connected w) (service w) (executed w) (fetched w)
          (disk w) (tmp w) (temp_file_path w) (ui w) (unicode_printable w).

Definition with_cursor (stmts : list string) (r : option result_set) (w : world) : world :=
  mkWorld (session w) (connected w) (service w) stmts r (disk w) (tmp w) (temp_file_path w) (ui w) (unicode_printable w).

Definition with_disk (d : list (string * list Byte.byte)) (w : world) : world :=
  mkWorld (session w) (connected w) (service w) (executed w) (fetched w)
          d (tmp w) (temp_file_path w) (ui w) (unicode_printable w).

Definition with_local (v : option string) (w : world) : world :=
  mkWorld (session w) (connected w) (service w) (executed w) (fetched w)
          (disk w) (tmp w) v (ui w) (unicode_printable w).

Definition with_ui (u : list ui_event) (w : world) : world :=
  mkWorld (session w) (connected w) (service w) (executed w) (fetched w)
          (disk w) (tmp w) (temp_file_path w) u (unicode_printable w).

(** ** State and exceptions *)

Definition M (A : Type) : Type := world -> outcome A * world.

Definition ret {A} (a : A) : M A := fun w => (Ret a, w).

Definition raise {A} (c : exn_class) (s : string) : M A :=
  fun w => (Raise (mkExn c s), w).

Definition bind {A B} (m : M A) (k : A -> M B) : M B :=
  fun w =>
    match m w with
    | (Ret a, w') => k a w'
    | (Raise e, w') => (Raise e, w')
    end.

Declare Scope py_scope.
Delimit Scope py_scope with py.
Notation "x <- m ;; k" := (bind m (fun x => k))
  (at level 100, m at next level, right associativity) : py_scope.
Notation "m ;; k" := (bind m (fun _ => k))
  (at level 100, right associativity) : py_scope.
Local Open Scope py_scope.

Definition lift {A} (o : outcome A) : M A := fun w => (o, w).

(** [try: body  except Exception as e: handler e] *)
Definition try_except {A} (body : M A) (handler : exn -> M A) : M A :=
  fun w =>
    match body w with
    | (Ret a, w') => (Ret a, w')
    | (Raise e, w') => handler e w'
    end.

(** [try: body  finally: fin]: an exception of [fin] replaces the outcome
    of [body]. *)
Definition try_finally {A} (body : M A) (fin : M unit) : M A :=
  fun w =>
    match body w with
    | (r, w') =>
        match fin w' with
        | (Ret _, w'') => (r, w'')
        | (Raise e, w'') => (Raise e, w'')
        end
    end.

(** A local variable that an assignment may not have reached yet *)
Definition read_local {A} (name : string) (v : option A) : M A :=
  match v with
  | Some a => ret a
  | None =>
      raise UnboundLocalError
        ("cannot access local variable '" ++ name ++
         "' where it is not associated with a value")
  end.

(** *** The page *)

Definition st (e : ui_event) : M unit :=
  fun w => (Ret tt, with_ui (ui w ++ [e]) w).

(** *** Session state *)

Definition get_session : M session_state := fun w => (Ret (session w), w).

Definition set_messages (ms : list message) : M unit :=
  fun w => (Ret tt,
    with_session (fun s => mkSession (Some ms) (model_name s) (use_chat_history s)
                                     (debug s) (clear_conversation s)) w).

(** [st.session_state.messages] *)
Definition session_messages : M (list message) :=
  s <- get_session ;;
  match messages s with
  | Some ms => ret ms
  | None => raise AttributeError "st.session_state has no attribute 'messages'"
  end.

(** [st.session_state.messages.append(m)] *)
Definition messages_append (m : message) : M unit :=
  ms <- session_messages ;;
  set_messages (ms ++ [m]).

(** *** The Snowflake cursor *)

Inductive pyval :=
| PNone
| PCursor                          (* the cursor of the one connection *)
| PUploaded (f : uploaded_file).

Definition py_truthy (v : pyval) : bool :=
  match v with PNone => false | _ => true end.

(** The module-level [cursor] *)
Definition cursor : M pyval :=
  fun w => (Ret (if connected w then PCursor else PNone), w).

Definition no_attribute {A} (v : pyval) (attr : string) : M A :=
  raise AttributeError
    ("'" ++ match v with PNone => "NoneType" | PCursor => "SnowflakeCursor"
            | PUploaded _ => "UploadedFile" end
     ++ "' object has no attribute '" ++ attr ++ "'").

(** [c.execute(cmd)]: the statement goes to the service, which answers
    with a result set or an error. *)
Definition execute (c : pyval) (cmd : string) : M unit :=
  match c with
  | PCursor => fun w =>
      match service w (length (executed w)) cmd with
      | ExecOk rs => (Ret tt, with_cursor (executed w ++ [cmd]) (Some rs) w)
      | ExecError m =>
          (Raise (mkExn ProgrammingError m), with_cursor (executed w ++ [cmd]) None w)
      end
  | _ => no_attribute c "execute"
  end.

Definition held_result : M result_set :=
  fun w =>
    match fetched w with
    | Some rs => (Ret rs, w)
    | None => (Raise (mkExn ProgrammingError "no result set"), w)
    end.

(** [c.fetchall()] *)
Definition fetchall (c : pyval) : M (list row) :=
  match c with
  | PCursor =>
      rs <- held_result ;;
      fun w => (Ret (rs_rows rs),
                with_cursor (executed w) (Some (mkResult (rs_description rs) [])) w)
  | _ => no_attribute c "fetchall"
  end.

(** [c.fetchone()]: the next row, or None *)
Definition fetchone (c : pyval) : M (option row) :=
  match c with
  | PCursor =>
      rs <- held_result ;;
      fun w => (Ret (hd_error (rs_rows rs)),
                with_cursor (executed w)
                  (Some (mkResult (rs_description rs) (tl (rs_rows rs)))) w)
  | _ => no_attribute c "fetchone"
  end.

(** [[col[0] for col in c.description]] *)
Definition description_names (c : pyval) : M (list string) :=
  match c with
  | PCursor => rs <- held_result ;; ret (rs_description rs)
  | _ => no_attribute c "description"
  end.

(** *** pandas *)

Record DataFrame := mkFrame { df_columns : list string; df_rows : list row }.

(** [pd.DataFrame(rows, columns=cols)]: every row must have one cell for
    each column. *)
Definition pd_DataFrame (rows : list row) (cols : list string) : outcome DataFrame :=
  if forallb (fun r => length r =? length cols)%nat rows
  then Ret (mkFrame cols rows)
  else Raise (mkExn ValueError "columns passed do not match the data").

(** [df.empty] *)
Definition df_empty (df : DataFrame) : bool :=
  match df_columns df, df_rows df with
  | [], _ | _, [] => true
  | _, _ => false
  end.

Fixpoint column_index (name : string) (cols : list string) : option nat :=
  match cols with
  | [] => None
  | c :: t => if String.eqb c name then Some 0%nat
              else option_map S (column_index name t)
  end.

(** [KeyError(name)]; the names the script looks up are plain ASCII *)
Definition key_error {A} (name : string) : outcome A :=
  Raise (mkExn KeyError (PyStr.repr_plain name)).

(** [df[name]]: the column, a Series *)
Definition df_getitem (df : DataFrame) (name : string) : outcome (list cell) :=
  match column_index name (df_columns df) with
  | Some i => Ret (map (fun r => nth i r CNull) (df_rows df))
  | None => key_error name
  end.

(** [series.replace(old, new)]: a value equal to [old] becomes [new];
    every other value is kept whole. *)
Definition series_replace (old new : string) (s : list cell) : list cell :=
  map (fun c => match c with
                | CStr v => if String.eqb v old then CStr new else CStr v
                | CNull => CNull
                end) s.

(** [sep.join(series)]: every item must be a str. *)
Fixpoint join_cells_from (i : Z) (sep : string) (s : list cell) : outcome (list string) :=
  match s with
  | [] => Ret []
  | CStr v :: t =>
      match join_cells_from (i + 1) sep t with
      | Ret l => Ret (v :: l)
      | Raise e => Raise e
      end
  | CNull :: _ =>
      Raise (mkExn TypeError ("sequence item " ++ PyStr.of_int i ++
                              ": expected str instance, NoneType found"))
  end.

Definition join_cells (sep : string) (s : list cell) : outcome string :=
  match join_cells_from 0 sep s with
  | Ret l => Ret (PyStr.join sep l)
  | Raise e => Raise e
  end.

(** [df.iloc[0][name]] *)
Definition df_iloc0_getitem (df : DataFrame) (name : string) : outcome cell :=
  match df_rows df with
  | [] => Raise (mkExn IndexError "single positional indexer is out-of-bounds")
  | r :: _ =>
      match column_index name (df_columns df) with
      | Some i => Ret (nth i r CNull)
      | None => key_error name
      end
  end.

(** [v.replace(old, new)] on a cell of a frame *)
Definition cell_replace (v : cell) (old : ascii) (new : string) : outcome string :=
  match v with
  | CStr s => Ret (PyStr.replace old new s)
  | CNull => Raise (mkExn AttributeError "'NoneType' object has no attribute 'replace'")
  end.

(** [str(v)] of a cell, as an f-string shows it *)
Definition cell_str (v : cell) : string :=
  match v with CStr s => s | CNull => "None" end.

(** ** The script: constants and statements *)

Definition num_chunks : Z := 3.
Definition slide_window : Z := 7.

Definition details_cmd : string :=
  "SELECT CURRENT_WAREHOUSE(), CURRENT_DATABASE(), CURRENT_SCHEMA()".

Definition list_cmd : string := "LIST @docs".

Definition put_command_of (temp_file_path : string) : string :=
  "PUT 'file://" ++ temp_file_path ++ "'@ARYAN_GUPTA_DB.DATA.DOCS AUTO_COMPRESS=TRUE".

(** The f-string [cmd] of [get_similar_chunks] *)
Definition similar_chunks_cmd (question : string) : string :=
  "
        WITH results AS (
            SELECT RELATIVE_PATH, 
            VECTOR_COSINE_SIMILARITY(docs_chunks_table.chunk_vec, 
            SNOWFLAKE.CORTEX.EMBED_TEXT_768('e5-base-v2', '" ++ question ++ "')) AS similarity, 
            chunk
            FROM docs_chunks_table
            ORDER BY similarity DESC
            LIMIT " ++ PyStr.of_int num_chunks ++ "
        )
        SELECT chunk, relative_path FROM results
    ".

(** The f-string [prompt] of [summarize_question_with_history] *)
Definition summary_prompt (chat_history_str question : string) : string :=
  "
        Based on the chat history below and the question, generate a query that extends the question
        with the chat history provided. The query should be in natural language. 
        Answer with only the query. Do not add any explanation.
        
        <chat_history>
        " ++ chat_history_str ++ "
        </chat_history>
        <question>
        " ++ question ++ "
        </question>
    ".

(** The f-string [cmd] of [summarize_question_with_history] and [complete] *)
Definition complete_cmd (model_name prompt : string) : string :=
  "SELECT snowflake.cortex.complete('" ++ model_name ++ "', '" ++ prompt ++ "') AS response".

(** The f-string [prompt] of [create_prompt]: the instructions, then the
    four segments. *)
Definition prompt_instructions : string :=
  "
       You are an expert chat assistant that extracts information from the CONTEXT provided
       between <context> and </context> tags.
       You offer a chat experience considering the information included in the CHAT HISTORY
       provided between <chat_history> and </chat_history> tags.
       When answering the question contained between <question> and </question> tags,
       be concise and do not hallucinate. 
       If you donâ€™t have the information just say so.
       
       Do not mention the CONTEXT used in your answer.
       Do not mention the CHAT HISTORY used in your answer.
       
       ".

Definition prompt_text (chat_history prompt_context myquestion : string) : string :=
  prompt_instructions ++
  "<chat_history>
       " ++ chat_history ++ "
       </chat_history>
       <context>          
       " ++ prompt_context ++ "
       </context>
       <question>  
       " ++ myquestion ++ "
       </question>
       Answer:
       ".

(** The statement [summarize_question_with_history] builds for the model
    [model] *)
Definition summary_cmd (model : string) (chat_history : list string)
    (question : string) : string :=
  complete_cmd model
    (summary_prompt (PyStr.replace PyStr.quote "''" (PyStr.join " " chat_history))
                    (PyStr.replace PyStr.quote "''" question)).

(** ** Scratch files *)

Definition disk_remove (p : string) (d : list (string * list Byte.byte)) :=
  filter (fun f => negb (String.eqb (fst f) p)) d.

Definition disk_exists (p : string) (d : list (string * list Byte.byte)) : bool :=
  existsb (fun f => String.eqb (fst f) p) d.

(** [tempfile.NamedTemporaryFile(delete=False)]: a new empty file *)
Definition NamedTemporaryFile : M string :=
  fun w =>
    match tmp_path (tmp w) with
    | Some p => (Ret p, with_disk ((p, []) :: disk_remove p (disk w)) w)
    | None => (Raise (mkExn OSError "No usable temporary directory found"), w)
    end.

(** [temp_file.write(content)] *)
Definition file_write (p : string) (bytes : list Byte.byte) : M unit :=
  fun w =>
    if tmp_write_ok (tmp w)
    then (Ret tt, with_disk ((p, bytes) :: disk_remove p (disk w)) w)
    else (Raise (mkExn OSError "No space left on device"), w).

(** [os.remove(p)] *)
Definition os_remove (p : string) : M unit :=
  fun w =>
    if disk_exists p (disk w)
    then (Ret tt, with_disk (disk_remove p (disk w)) w)
    else (Raise (mkExn FileNotFoundError ("No such file or directory: " ++ PyStr.repr (unicode_printable w) p)), w).

(** [os.path.exists(p)] *)
Definition os_path_exists (p : string) : M bool :=
  fun w => (Ret (disk_exists p (disk w)), w).

Definition assign_temp_file_path (p : string) : M unit :=
  fun w => (Ret tt, with_local (Some p) w).

Definition read_temp_file_path : M string :=
  fun w => read_local "temp_file_path" (temp_file_path w) w.

(** ** The script: functions *)

Definition unpack3 (r : option row) : M (cell * cell * cell) :=
  match r with
  | None => raise TypeError "cannot unpack non-iterable NoneType object"
  | Some [a; b; c] => ret (a, b, c)
  | Some (_ :: _ :: _ :: _ :: _) =>
      raise ValueError "too many values to unpack (expected 3)"
  | Some _ => raise ValueError "not enough values to unpack (expected 3)"
  end.

Definition display_snowflake_details : M unit :=
  c <- cursor ;;
  if py_truthy c then
    try_except
      (execute c details_cmd ;;
       r <- fetchone c ;;
       t <- unpack3 r ;;
       let '(warehouse, database, schema) := t in
       st (UiWrite ("**Warehouse**: " ++ cell_str warehouse)) ;;
       st (UiWrite ("**Database**: " ++ cell_str database)) ;;
       st (UiWrite ("**Schema**: " ++ cell_str schema)))
      (fun e =>
         st (UiWrite "Error fetching Snowflake connection details:") ;;
         st (UiWrite (exn_str e)))
  else st (UiWrite "No Snowflake connection available.").

(** The body of [upload_to_snowflake(uploaded_file, cursor)]; the
    parameter [cursor] hides the module-level one. *)
Definition upload_to_snowflake (uploaded_file cursor : pyval) : M unit :=
  (fun w => (Ret tt, with_local None w)) ;;
  if py_truthy cursor then
    f <- match uploaded_file with
         | PUploaded f => ret f
         | _ => no_attribute uploaded_file "name"
         end ;;
    let file_name := uf_name f in
    let file_content := uf_bytes f in
    try_finally
      (try_except
         (temp_file <- NamedTemporaryFile ;;
          file_write temp_file file_content ;;
          assign_temp_file_path temp_file ;;
          p <- read_temp_file_path ;;
          let put_command := put_command_of p in
          execute cursor put_command ;;
          p <- read_temp_file_path ;;
          os_remove p ;;
          st (UiSuccess ("File '" ++ file_name ++
                         "' successfully uploaded to stage @ARYAN_GUPTA_DB.DATA.DOCS.")))
         (fun e => st (UiError ("Error uploading file to Snowflake: " ++ exn_str e))))
      (p <- read_temp_file_path ;;
       b <- os_path_exists p ;;
       if b then os_remove p else ret tt)
  else st (UiError "No connection to Snowflake for file upload.").

(** A call of [upload_to_snowflake] with positional arguments [args]: both
    parameters are required. *)
Definition call_upload_to_snowflake (args : list pyval) : M unit :=
  match args with
  | [uploaded_file; cursor] => upload_to_snowflake uploaded_file cursor
  | [] =>
      raise TypeError
        "upload_to_snowflake() missing 2 required positional arguments: 'uploaded_file' and 'cursor'"
  | [_] =>
      raise TypeError
        "upload_to_snowflake() missing 1 required positional argument: 'cursor'"
  | _ =>
      raise TypeError
        ("upload_to_snowflake() takes 2 positional arguments but " ++
         PyStr.of_int (Z.of_nat (length args)) ++ " were given")
  end.

(** The widgets of the sidebar, as the user left them for this run *)
Record widgets := mkWidgets {
  w_model_name : string;
  w_use_chat_history : bool;
  w_debug : bool;
  w_clear_conversation : bool
}.

Definition model_options : list string :=
  ["mixtral-8x7b"; "snowflake-arctic"; "mistral-large"; "llama3-8b"; "llama3-70b";
   "reka-flash"; "mistral-7b"; "llama2-70b-chat"; "gemma-7b"].

(** Each widget stores its value under its key. *)
Definition config_options (v : widgets) : M unit :=
  fun w => (Ret tt,
    with_session (fun s => mkSession (messages s) (w_model_name v)
                    (w_use_chat_history v) (w_debug v) (w_clear_conversation v)) w).

Definition init_messages : M unit :=
  s <- get_session ;;
  if clear_conversation s || match messages s with None => true | Some _ => false end
  then set_messages []
  else ret tt.

Definition get_similar_chunks (question : string) : M string :=
  let cmd := similar_chunks_cmd question in
  try_except
    (c <- cursor ;;
     execute c cmd ;;
     rows <- fetchall c ;;
     cols <- description_names c ;;
     df_chunks <- lift (pd_DataFrame rows cols) ;;
     chunks <- lift (df_getitem df_chunks "CHUNK") ;;
     lift (join_cells "" (series_replace "'" "" chunks)))
    (fun e =>
       st (UiError ("Error fetching similar chunks: " ++ exn_str e)) ;;
       ret "").

(** [range(a, b)] *)
Definition py_range (a b : Z) : list Z :=
  map (fun k => (a + Z.of_nat k)%Z) (seq 0 (Z.to_nat (b - a))).

(** [l[i]]: a negative index counts from the end. *)
Definition py_getitem {A} (l : list A) (i : Z) : outcome A :=
  let j := if (i <? 0)%Z then (i + Z.of_nat (length l))%Z else i in
  match (if (j <? 0)%Z then None else nth_error l (Z.to_nat j)) with
  | Some a => Ret a
  | None => Raise (mkExn IndexError "list index out of range")
  end.

(** The loop of [get_chat_history] over the indices [idx] *)
Fixpoint chat_history_loop (msgs : list message) (idx : list Z)
    (chat_history : list string) : outcome (list string) :=
  match idx with
  | [] => Ret chat_history
  | i :: rest =>
      match py_getitem msgs i with
      | Ret m => chat_history_loop msgs rest (chat_history ++ [content m])
      | Raise e => Raise e
      end
  end.

Definition get_chat_history : M (list string) :=
  msgs <- session_messages ;;
  let len := Z.of_nat (length msgs) in
  let start_index := Z.max 0 (len - slide_window) in
  lift (chat_history_loop msgs (py_range start_index (len - 1)) []).

Definition summarize_question_with_history (chat_history : list string)
    (question : string) : M string :=
  let chat_history_str := PyStr.replace PyStr.quote "''" (PyStr.join " " chat_history) in
  let question := PyStr.replace PyStr.quote "''" question in
  let prompt := summary_prompt chat_history_str question in
  s <- get_session ;;
  let cmd := complete_cmd (model_name s) prompt in
  try_except
    (c <- cursor ;;
     execute c cmd ;;
     rows <- fetchall c ;;
     cols <- description_names c ;;
     df_response <- lift (pd_DataFrame rows cols) ;;
     summary <- (if negb (df_empty df_response)
                 then v <- lift (df_iloc0_getitem df_response "RESPONSE") ;;
                      lift (cell_replace v PyStr.quote "")
                 else ret "") ;;
     s <- get_session ;;
     (if debug s
      then st (UiSidebarText "Summary to be used to find similar chunks in the docs:") ;;
           st (UiSidebarCaption summary)
      else ret tt) ;;
     ret summary)
    (fun e =>
       st (UiError ("Error summarizing question with history: " ++ exn_str e)) ;;
       ret "").

(** The local [chat_history] of [create_prompt]: a list, or the empty
    string when history is off. *)
Inductive history_value :=
| HistList (l : list string)
| HistStr (s : string).

(** [str(chat_history)] *)
Definition history_str (printable : N -> bool) (h : history_value) : string :=
  match h with
  | HistList l => PyStr.repr_list printable l
  | HistStr s => s
  end.

(** The Unicode table of the interpreter, which nothing changes *)
Definition unicode : M (N -> bool) := fun w => (Ret (unicode_printable w), w).

Definition create_prompt (myquestion : string) : M string :=
  printable <- unicode ;;
  s <- get_session ;;
  hc <- (if use_chat_history s then
           chat_history <- get_chat_history ;;
           match chat_history with
           | _ :: _ =>
               question_summary <- summarize_question_with_history chat_history myquestion ;;
               prompt_context <- get_similar_chunks question_summary ;;
               ret (HistList chat_history, prompt_context)
           | [] =>
               prompt_context <- get_similar_chunks myquestion ;;
               ret (HistList chat_history, prompt_context)
           end
         else
           prompt_context <- get_similar_chunks myquestion ;;
           ret (HistStr "", prompt_context)) ;;
  let '(chat_history, prompt_context) := hc in
  s <- get_session ;;
  (if debug s
   then st (UiWrite ("Prompt Context: " ++ prompt_context)) ;;
        st (UiWrite ("Chat History: " ++ history_str printable chat_history))
   else ret tt) ;;
  ret (prompt_text (history_str printable chat_history) prompt_context myquestion).

(** [complete] returns a frame or None. *)
Definition complete (myquestion : string) : M (option DataFrame) :=
  st (UiWrite ("Creating prompt for question: " ++ myquestion)) ;;
  try_except
    (prompt <- create_prompt myquestion ;;
     let prompt := PyStr.replace PyStr.quote "''" prompt in
     s <- get_session ;;
     let cmd := complete_cmd (model_name s) prompt in
     c <- cursor ;;
     execute c cmd ;;
     df_response <- fetchall c ;;
     match df_response with
     | _ :: _ =>
         cols <- description_names c ;;
         df <- lift (pd_DataFrame df_response cols) ;;
         ret (Some df)
     | [] =>
         st (UiError "No response received from Snowflake.") ;;
         ret None
     end)
    (fun e =>
       st (UiError ("Error in completing the request: " ++ exn_str e)) ;;
       ret None).

(** What the user did before this run of the script *)
Record inputs := mkInputs {
  in_uploaded_file : option uploaded_file;   (* [st.file_uploader] *)
  in_widgets : widgets;
  in_chat_input : option string              (* [st.chat_input] *)
}.

(** Lines 48-54 of [main] *)
Definition main_upload (uploaded_file : option uploaded_file) : M unit :=
  match uploaded_file with
  | Some f =>
      try_except
        (call_upload_to_snowflake [PUploaded f] ;;
         st (UiSuccess "File uploaded successfully!"))
        (fun e => st (UiError ("Error uploading file: " ++ exn_str e)))
  | None => ret tt
  end.

(** [[doc[0] for doc in docs_available]] *)
Fixpoint first_cells (docs_available : list row) : outcome (list cell) :=
  match docs_available with
  | [] => Ret []
  | [] :: _ => Raise (mkExn IndexError "tuple index out of range")
  | (c :: _) :: t =>
      match first_cells t with
      | Ret l => Ret (c :: l)
      | Raise e => Raise e
      end
  end.

(** Lines 58-67 of [main] *)
Definition main_list_docs : M unit :=
  c <- cursor ;;
  if py_truthy c then
    try_except
      (execute c list_cmd ;;
       docs_available <- fetchall c ;;
       list_docs <- lift (first_cells docs_available) ;;
       st (UiDataframe list_docs))
      (fun e => st (UiError ("Error fetching documents: " ++ exn_str e)))
  else st (UiError "Cursor is not defined. Unable to fetch documents.").

(** Lines 72-74 of [main] *)
Fixpoint render_messages (msgs : list message) : M unit :=
  match msgs with
  | [] => ret tt
  | m :: t =>
      st (UiChatMessage (role_str (msg_role m))) ;;
      st (UiMarkdown (content m)) ;;
      render_messages t
  end.

(** Lines 90-92 of [main]: the branch that leaves [res_text] unassigned *)
Definition no_response : M (option string) :=
  st (UiError "No response received from Snowflake.") ;;
  st (UiMarkdown "No response available.") ;;
  ret None.

(** Lines 86-94 of [main]; the value computed for [res_text] is [None]
    while the local is unassigned. *)
Definition main_answer (response : option DataFrame) : M unit :=
  res_text <-
    match response with
    | Some df =>
        if negb (df_empty df) then
          v <- lift (df_iloc0_getitem df "RESPONSE") ;;
          res_text <- lift (cell_replace v PyStr.quote "") ;;
          st (UiMarkdown res_text) ;;
          ret (Some res_text)
        else no_response
    | None => no_response
    end ;;
  res_text <- read_local "res_text" res_text ;;
  messages_append (mkMessage assistant res_text).

(** Lines 76-94 of [main] *)
Definition main_turn (chat_input : option string) : M unit :=
  match chat_input with
  | Some question =>
      if PyStr.truthy question then
        messages_append (mkMessage user question) ;;
        st (UiChatMessage "user") ;;
        st (UiMarkdown question) ;;
        st (UiChatMessage "assistant") ;;
        let question := PyStr.replace PyStr.quote "" question in
        s <- get_session ;;
        st (UiSpinner (model_name s ++ " thinking...")) ;;
        response <- complete question ;;
        main_answer response
      else ret tt
  | None => ret tt
  end.

Definition main (i : inputs) : M unit :=
  st (UiTitle ":speech_balloon: Chat Document Assistant with Snowflake Cortex") ;;
  st (UiWrite "### Snowflake Connection Details") ;;
  display_snowflake_details ;;
  st (UiWrite "### Upload a Document") ;;
  main_upload (in_uploaded_file i) ;;
  st (UiWrite "### List of Documents") ;;
  st (UiWrite "This is the list of documents you already have and that will be used to answer your questions:") ;;
  main_list_docs ;;
  config_options (in_widgets i) ;;
  init_messages ;;
  s <- get_session ;;
  render_messages (match messages s with Some msgs => msgs | None => [] end) ;;
  main_turn (in_chat_input i).

(** ** Sessions: the script runs once for every interaction, and session
    state is what one run leaves to the next, also when the run ends in an
    exception. *)

Definition initial_session : session_state :=
  mkSession None "mixtral-8x7b" true true false.

(** What a run finds outside session state: whether the connection could
    be made, and what the service and the scratch directory will do. *)
Record environment := mkEnv {
  env_connected : bool;
  env_service : nat -> string -> exec_result;
  env_tmp : tmp_env;
  env_printable : N -> bool
}.

(** The world a run starts in, once the lines above [main] have made the
    connection or failed to: a new cursor, or none, and an empty page *)
Definition start_world (s : session_state) (d : list (string * list Byte.byte))
    (e : environment) : world :=
  mkWorld s (env_connected e) (env_service e) [] None d (env_tmp e) None []
          (env_printable e).

(** One run of the script, from one session state to the next *)
Definition script_run (e : environment) (i : inputs) (s : session_state) : session_state :=
  session (snd (main i (start_world s [] e))).

(** The session states that runs of the script can produce *)
Inductive reachable : session_state -> Prop :=
| reach_initial : reachable initial_session
| reach_run e i s : reachable s -> reachable (script_run e i s).

Definition session_msgs (s : session_state) : list message :=
  match messages s with Some msgs => msgs | None => [] end.

(** The conversation a run of [main] starts its turn with: the one of the
    session, or none after Start Over. *)
Definition kept_messages (v : widgets) (s : session_state) : list message :=
  if w_clear_conversation v then [] else session_msgs s.

(** User and assistant messages alternate, with at most one user message
    left unanswered at the end. *)
Fixpoint alternating (msgs : list message) : bool :=
  match msgs with
  | [] => true
  | u :: rest =>
      role_eqb (msg_role u) user &&
      match rest with
      | [] => true
      | a :: rest' => role_eqb (msg_role a) assistant && alternating rest'
      end
  end.

(** [w'] is [w] but for what the page shows. *)
Definition same_but_ui (w w' : world) : Prop := w' = with_ui (ui w') w.

(** The window of [get_chat_history] over [msgs] *)
Definition window (msgs : list message) : list string :=
  map content (skipn (length msgs - 7) (removelast msgs)).

(** What [create_prompt] holds in [chat_history] *)
Definition history_of (s : session_state) (msgs : list message) : history_value :=
  if use_chat_history s then HistList (window msgs) else HistStr "".

(** What [create_prompt] writes on the page when the debug box is ticked *)
Definition debug_output (printable : N -> bool) (s : session_state) (ctx : string)
    (hist : history_value) : list ui_event :=
  if debug s
  then [UiWrite ("Prompt Context: " ++ ctx);
        UiWrite ("Chat History: " ++ history_str printable hist)]
  else [].

(** [series.replace(old, new)] on one text value *)
Definition whole_value_replace (old new v : string) : string :=
  if String.eqb v old then new else v.

(** The statements one chat turn gives to a live cursor, when the question
    that reaches [complete] is [q]: the similarity search and the
    completion, after a summarisation when there is history. *)
Definition retrieval_statements (q : string) (stmts : list string) : Prop :=
  stmts = [similar_chunks_cmd q] \/
  exists m hp s,
    PyStr.mem PyStr.quote s = false /\
    stmts = [complete_cmd m hp; similar_chunks_cmd s].

Definition turn_statements (q : string) (stmts : list string) : Prop :=
  exists retrieval m p,
    retrieval_statements q retrieval /\
    stmts = (retrieval ++ [complete_cmd m p])%list.

(** The service gave nothing to work with: an error, or no row. *)
Definition no_rows (r : exec_result) : bool :=
  match r with
  | ExecError _ => true
  | ExecOk rs => match rs_rows rs with [] => true | _ :: _ => false end
  end.

(** A conversation in which every question has its answer *)
Definition answered (msgs : list message) : bool :=
  alternating msgs && Nat.even (length msgs).


(** ** Sample sessions *)

Module Sample.

(** A Unicode table for the samples: of the code points from 128 up, the
    C1 controls, the no-break space, the soft hyphen and the spaces and
    format characters U+2000 to U+200F are not printable. *)
Definition unicode_sample : N -> bool :=
  fun cp => negb ((cp <? 161) || (cp =? 173) || ((8192 <=? cp) && (cp <? 8208)))%N.

Definition widgets_on : widgets := mkWidgets "mistral-7b" true true false.

(** A service that is down *)
Definition service_down : nat -> string -> exec_result :=
  fun _ _ => ExecError "Network is unreachable".

Definition env_down : environment := mkEnv true service_down (mkTmp (Some "/tmp/tmpab12") true) unicode_sample.

Definition three_messages : list message :=
  [mkMessage user "a"; mkMessage assistant "b"; mkMessage user "c"].

Definition session_three : session_state :=
  mkSession (Some three_messages) "mistral-7b" true true false.

Definition world_three : world := start_world session_three [] env_down.

(** A service whose similarity search finds one chunk, a lone quote *)
Definition service_quote_chunk : nat -> string -> exec_result :=
  fun _ _ => ExecOk (mkResult ["CHUNK"; "RELATIVE_PATH"] [[CStr "'"; CStr "a.pdf"]]).

Definition world_quote_chunk : world :=
  start_world session_three [] (mkEnv true service_quote_chunk (mkTmp None false) unicode_sample).

Definition chunk_rows : list row :=
  [[CStr "it's a"; CStr "a.pdf"]; [CStr "'"; CStr "a.pdf"]; [CStr "b'c"; CStr "b.pdf"]].

(** A service whose similarity search finds three chunks and whose model
    answers with a quote in its text *)
Definition service_chunks : nat -> string -> exec_result :=
  fun _ cmd =>
    if PyStr.contains "docs_chunks_table" cmd
    then ExecOk (mkResult ["CHUNK"; "RELATIVE_PATH"] chunk_rows)
    else ExecOk (mkResult ["RESPONSE"] [[CStr "What's X made of?"]]).

Definition env_chunks : environment := mkEnv true service_chunks (mkTmp None false) unicode_sample.

Definition world_chunks : world := start_world session_three [] env_chunks.

(** A service that finds no chunk *)
Definition service_no_rows : nat -> string -> exec_result :=
  fun _ _ => ExecOk (mkResult ["CHUNK"; "RELATIVE_PATH"] []).

Definition world_no_rows : world :=
  start_world session_three [] (mkEnv true service_no_rows (mkTmp None false) unicode_sample).

(** The user asks [q]; nothing is uploaded. *)
Definition ask (q : string) : inputs := mkInputs None widgets_on (Some q).

Definition report : uploaded_file := mkUpload "report.pdf" [].


(** The first run of a session, with a service that answers *)
Definition first_world : world := start_world initial_session [] env_chunks.

(** Two questions asked while the service is down *)
Definition session_after_two : session_state :=
  script_run env_down (ask "Y?") (script_run env_down (ask "X?") initial_session).

(** The scratch file can be created but not written (the disk is full). *)
Definition world_disk_full : world :=
  start_world session_three []
    (mkEnv true service_chunks (mkTmp (Some "/tmp/tmpab12") false) unicode_sample).

Definition world_upload_ok : world :=
  start_world session_three []
    (mkEnv true service_chunks (mkTmp (Some "/tmp/tmpab12") true) unicode_sample).

(** A service whose model answers every completion and whose similarity
    search fails *)
Definition model_answer : result_set := mkResult ["RESPONSE"] [[CStr "It's made of oak."]].

Definition service_model : nat -> string -> exec_result :=
  fun _ cmd =>
    if prefix "SELECT snowflake.cortex.complete(" cmd
    then ExecOk model_answer
    else ExecError "Table DOCS_CHUNKS_TABLE does not exist".

Definition env_model : environment := mkEnv true service_model (mkTmp None false) unicode_sample.

(** The page is drawn again, with no question; [clear] is the Start Over
    button. *)
Definition redraw (clear : bool) : inputs :=
  mkInputs None (mkWidgets "mistral-7b" true true clear) None.

Definition session_answered : session_state :=
  mkSession (Some [mkMessage user "a"; mkMessage assistant "b"]) "mistral-7b" true true false.

(** A service that knows where it is and what the stage holds *)
Definition service_docs : nat -> string -> exec_result :=
  fun _ cmd =>
    if String.eqb cmd details_cmd
    then ExecOk (mkResult ["WAREHOUSE"; "DATABASE"; "SCHEMA"]
                   [[CStr "COMPUTE_WH"; CStr "DOCS_DB"; CStr "PUBLIC"]])
    else ExecOk (mkResult ["name"; "size"]
                   [[CStr "docs/a.pdf"; CStr "1024"]; [CStr "docs/b.pdf"; CStr "2048"]]).

Definition world_docs : world :=
  start_world initial_session [] (mkEnv true service_docs (mkTmp None false) unicode_sample).

(** The connection could not be made. *)
Definition world_offline : world :=
  start_world initial_session [] (mkEnv false service_model (mkTmp None false) unicode_sample).

End Sample.

(** * Properties *)

Arguments similar_chunks_cmd : simpl never.
Arguments complete_cmd : simpl never.
Arguments summary_prompt : simpl never.
Arguments prompt_text : simpl never.
Arguments put_command_of : simpl never.

(** ** Strings *)

Section Strings.

Import PyStr.

Lemma replace_quote_mem (s : string) :
  mem quote (replace quote "" s) = false.
Proof.
  induction s as [|c t IH]; [reflexivity|].
  cbn [replace]. destruct (Ascii.eqb c quote) eqn:E.
  - exact IH.
  - cbn [mem]. now rewrite E, IH.
Qed.

Lemma replace_quote_filter (s : string) :
  list_ascii_of_string (replace quote "" s) =
  filter (fun c => negb (Ascii.eqb c quote)) (list_ascii_of_string s).
Proof.
  induction s as [|c t IH]; [reflexivity|].
  cbn [replace list_ascii_of_string filter].
  destruct (Ascii.eqb c quote); cbn [negb]; [exact IH|].
  cbn [list_ascii_of_string]. now rewrite IH.
Qed.

Lemma count_app (c : ascii) (a b : string) :
  count c (a ++ b) = (count c a + count c b)%nat.
Proof.
  induction a as [|d t IH]; [reflexivity|].
  cbn [append count]. rewrite IH. lia.
Qed.

Lemma mem_count (c : ascii) (s : string) :
  mem c s = false <-> count c s = 0%nat.
Proof.
  induction s as [|d t IH]; cbn [mem count]; [tauto|].
  destruct (Ascii.eqb d c); cbn [orb]; [split; [discriminate|lia]|].
  rewrite IH. reflexivity.
Qed.

Lemma contains_app_r (pat a b : string) :
  contains pat b = true -> contains pat (a ++ b) = true.
Proof.
  intros H. induction a as [|d a IH]; [exact H|].
  cbn [append contains]. rewrite IH. apply orb_true_r.
Qed.

End Strings.

(** ** The sliding window of [get_chat_history] *)

Section Window.

Variable msgs : list message.

Lemma skipn_nth_error {A} (l : list A) (a : nat) (x : A) :
  nth_error l a = Some x -> skipn a l = x :: skipn (S a) l.
Proof.
  revert a. induction l as [|y l IH]; intros [|a] H; try discriminate.
  - now injection H as ->.
  - cbn [nth_error] in H. cbn [skipn]. now apply IH.
Qed.

Lemma py_getitem_nat {A} (l : list A) (a : nat) (x : A) :
  nth_error l a = Some x -> py_getitem l (Z.of_nat a) = Ret x.
Proof.
  intros H. unfold py_getitem.
  destruct (Z.of_nat a <? 0)%Z eqn:E; [apply Z.ltb_lt in E; lia|].
  cbv zeta. now rewrite E, Nat2Z.id, H.
Qed.

(** The loop appends the contents of the messages at [a], [a+1], ...,
    [a+n-1], in this order, and cannot fail while these are in range. *)
Lemma chat_history_loop_range (n : nat) :
  forall (a : nat) (acc : list string),
    (a + n <= length msgs)%nat ->
    chat_history_loop msgs (map (fun k => (Z.of_nat a + Z.of_nat k)%Z) (seq 0 n)) acc =
    Ret (acc ++ map content (firstn n (skipn a msgs)))%list.
Proof.
  induction n as [|n IH]; intros a acc Hle.
  - cbn. now rewrite app_nil_r.
  - destruct (nth_error msgs a) as [m|] eqn:Hm;
      [|apply nth_error_None in Hm; lia].
    cbn [seq map chat_history_loop]. rewrite Z.add_0_r, (py_getitem_nat _ _ _ Hm).
    rewrite <- seq_shift, map_map.
    rewrite (map_ext _ (fun k => (Z.of_nat (S a) + Z.of_nat k)%Z)) by (intros; lia).
    rewrite IH by lia.
    rewrite (skipn_nth_error _ _ _ Hm). cbn [firstn map].
    now rewrite <- app_assoc.
Qed.

Lemma chat_history_loop_window :
  chat_history_loop msgs
    (py_range (Z.max 0 (Z.of_nat (length msgs) - slide_window))
              (Z.of_nat (length msgs) - 1)) [] =
  Ret (map content (skipn (length msgs - 7) (removelast msgs))).
Proof.
  unfold py_range, slide_window.
  set (L := length msgs).
  assert (Hs : Z.max 0 (Z.of_nat L - 7) = Z.of_nat (L - 7)) by lia.
  rewrite Hs.
  assert (Hn : Z.to_nat (Z.of_nat L - 1 - Z.of_nat (L - 7)) = (L - 1 - (L - 7))%nat) by lia.
  rewrite Hn, chat_history_loop_range by (fold L; lia).
  cbn [app]. f_equal.
  rewrite removelast_firstn_len, skipn_firstn_comm.
  fold L. now replace (Nat.pred L) with (L - 1)%nat by lia.
Qed.

End Window.

(** C3. Over a conversation of length L >= 1, [get_chat_history] returns
    (it raises nothing and changes nothing) the contents of the messages
    from index max(0, L-7) up to, and not including, the last one, in the
    order of insertion: at most min(L-1, 7) entries. *)
Theorem get_chat_history_window (w : world) (msgs : list message) :
  messages (session w) = Some msgs ->
  (1 <= length msgs)%nat ->
  exists chat_history,
    get_chat_history w = (Ret chat_history, w) /\
    (Z.of_nat (length chat_history) <= Z.min (Z.of_nat (length msgs) - 1) 7)%Z /\
    chat_history = map content (skipn (length msgs - 7) (removelast msgs)) /\
    (exists older, map content (removelast msgs) = older ++ chat_history)%list.
Proof.
  intros Hm HL.
  exists (map content (skipn (length msgs - 7) (removelast msgs))).
  split; [|split; [|split]].
  - unfold get_chat_history, session_messages, get_session, bind, ret, lift.
    rewrite Hm. now rewrite chat_history_loop_window.
  - rewrite length_map, length_skipn, removelast_firstn_len, length_firstn. lia.
  - reflexivity.
  - exists (map content (firstn (length msgs - 7) (removelast msgs))).
    now rewrite <- map_app, firstn_skipn.
Qed.

Lemma get_chat_history_window_witness :
  exists chat_history,
    get_chat_history Sample.world_three = (Ret chat_history, Sample.world_three) /\
    (Z.of_nat (length chat_history) <= Z.min (Z.of_nat (length Sample.three_messages) - 1) 7)%Z /\
    chat_history = map content (skipn (length Sample.three_messages - 7)
                                  (removelast Sample.three_messages)) /\
    (exists older, map content (removelast Sample.three_messages) = older ++ chat_history)%list.
Proof.
  apply (get_chat_history_window Sample.world_three Sample.three_messages eq_refl).
  cbn. lia.
Defined.

(** ** What each function executes and returns *)

Ltac unfold_m :=
  unfold bind, ret, raise, lift, st, try_except, try_finally, cursor, execute,
    fetchall, fetchone, description_names, held_result, no_attribute, get_session,
    session_messages, messages_append, set_messages, read_local,
    with_cursor, with_ui, with_session, with_disk, with_local in *.

Ltac case_match :=
  match goal with
  | |- context [match ?x with _ => _ end] =>
      lazymatch x with
      | context [match _ with _ => _ end] => fail
      | _ => destruct x eqn:?
      end
  end.

Lemma same_but_ui_refl (w : world) : same_but_ui w w.
Proof. now destruct w. Qed.

Lemma get_chat_history_total (w : world) (msgs : list message) :
  messages (session w) = Some msgs ->
  get_chat_history w = (Ret (window msgs), w).
Proof.
  intros Hm. unfold get_chat_history, session_messages, get_session, bind, ret, lift.
  rewrite Hm. now rewrite chat_history_loop_window.
Qed.

Lemma get_similar_chunks_trace (q : string) (w : world) :
  exists s w',
    get_similar_chunks q w = (Ret s, w') /\
    executed w' = (executed w ++ if connected w then [similar_chunks_cmd q] else [])%list /\
    session w' = session w /\ connected w' = connected w /\ service w' = service w.
Proof.
  unfold get_similar_chunks. unfold_m. cbn.
  destruct (connected w) eqn:Hc; cbn.
  - destruct (service w _ _) eqn:Hs; cbn.
    + eexists _, _. split; [reflexivity|]. cbn. rewrite Hc. auto.
    + repeat (case_match; cbn); eexists _, _; (split; [reflexivity|]); cbn;
        rewrite ?Hc; auto.
  - eexists _, _. split; [reflexivity|]. cbn. rewrite Hc, app_nil_r. auto.
Qed.

Lemma summarize_trace (h : list string) (q : string) (w : world) :
  exists s w',
    summarize_question_with_history h q w = (Ret s, w') /\
    PyStr.mem PyStr.quote s = false /\
    executed w' =
      (executed w ++
       if connected w
       then [complete_cmd (model_name (session w))
               (summary_prompt (PyStr.replace PyStr.quote "''" (PyStr.join " " h))
                               (PyStr.replace PyStr.quote "''" q))]
       else [])%list /\
    session w' = session w /\ connected w' = connected w /\ service w' = service w.
Proof.
  unfold summarize_question_with_history. unfold_m. cbn.
  destruct (connected w) eqn:Hc; cbn.
  - destruct (service w _ _) eqn:Hs; cbn.
    + eexists _, _. split; [reflexivity|]. cbn. rewrite Hc. auto.
    + repeat (case_match; cbn); eexists _, _; (split; [reflexivity|]); cbn;
        rewrite ?Hc;
        repeat match goal with
               | H : cell_replace ?c _ _ = Ret _ |- _ =>
                   destruct c; cbn in H; inversion H; subst; clear H
               end; auto using replace_quote_mem.
  - eexists _, _. split; [reflexivity|]. cbn. rewrite Hc, app_nil_r. auto.
Qed.

Lemma same_but_ui_fields (w w' : world) :
  same_but_ui w w' ->
  executed w' = executed w /\ session w' = session w /\
  connected w' = connected w /\ service w' = service w /\ disk w' = disk w.
Proof. unfold same_but_ui. intros ->. cbn. auto. Qed.

Lemma debug_out (b : bool) (x y : ui_event) (w : world) :
  (if b then bind (st x) (fun _ => st y) else ret tt) w =
  (Ret tt, with_ui (ui w ++ if b then [x; y] else []) w).
Proof.
  destruct b.
  - unfold bind, st, with_ui. cbn. now rewrite <- app_assoc.
  - unfold ret, with_ui. rewrite app_nil_r. now destruct w.
Qed.

(** [create_prompt] reads the session, runs the retrieval (after the
    summarisation when the window is not empty), writes the debug lines
    and formats the prompt. *)
Lemma create_prompt_spec (q : string) (w : world) (msgs : list message) :
  messages (session w) = Some msgs ->
  exists hist ctx w2 w' stmts,
    create_prompt q w =
      (Ret (prompt_text (history_str (unicode_printable w) hist) ctx q), w') /\
    w' = with_ui (ui w2 ++ debug_output (unicode_printable w) (session w) ctx hist) w2 /\
    ((use_chat_history (session w) = false /\ hist = HistStr "" /\
      get_similar_chunks q w = (Ret ctx, w2) /\ stmts = [similar_chunks_cmd q]) \/
     (use_chat_history (session w) = true /\ window msgs = [] /\ hist = HistList [] /\
      get_similar_chunks q w = (Ret ctx, w2) /\ stmts = [similar_chunks_cmd q]) \/
     (use_chat_history (session w) = true /\ window msgs <> [] /\
      hist = HistList (window msgs) /\
      exists summary w1,
        summarize_question_with_history (window msgs) q w = (Ret summary, w1) /\
        get_similar_chunks summary w1 = (Ret ctx, w2) /\
        stmts = [summary_cmd (model_name (session w)) (window msgs) q;
                 similar_chunks_cmd summary])) /\
    retrieval_statements q stmts /\
    executed w' = (executed w ++ if connected w then stmts else [])%list /\
    session w' = session w /\ connected w' = connected w /\ service w' = service w /\
    hist = history_of (session w) msgs.
Proof.
  intros Hm. unfold create_prompt, history_of, debug_output.
  unfold bind at 1. unfold unicode at 1.
  unfold bind at 1. unfold get_session at 1.
  destruct (use_chat_history (session w)) eqn:Hu.
  - unfold bind at 1. unfold bind at 1. rewrite (get_chat_history_total _ _ Hm).
    destruct (window msgs) as [|h0 hs] eqn:Hw.
    + destruct (get_similar_chunks_trace q w) as (ctx & w2 & E & Hx & Hs & Hc & Hv).
      unfold bind at 1. rewrite E. unfold ret at 1. unfold bind at 1.
      unfold get_session at 1. unfold bind at 1.
      rewrite debug_out.
      eexists (HistList []), ctx, w2, _, [similar_chunks_cmd q]. unfold ret.
      split; [reflexivity|]. cbn [with_ui executed session connected service].
      rewrite Hx, Hs, Hc, Hv. unfold retrieval_statements. auto 14.
    + destruct (summarize_trace (h0 :: hs) q w)
        as (sm & w1 & E1 & Hq & Hx1 & Hs1 & Hc1 & Hv1).
      destruct (get_similar_chunks_trace sm w1) as (ctx & w2 & E & Hx & Hs & Hc & Hv).
      unfold bind at 1. rewrite E1. unfold bind at 1. rewrite E.
      unfold ret at 1. unfold bind at 1. unfold get_session at 1. unfold bind at 1.
      rewrite debug_out.
      eexists (HistList (h0 :: hs)), ctx, w2, _,
        [complete_cmd (model_name (session w))
           (summary_prompt (PyStr.replace PyStr.quote "''" (PyStr.join " " (h0 :: hs)))
                           (PyStr.replace PyStr.quote "''" q));
         similar_chunks_cmd sm].
      unfold ret.
      split; [reflexivity|]. cbn [with_ui executed session connected service].
      rewrite Hx, Hs, Hc, Hv, Hx1, Hs1, Hc1, Hv1.
      split; [reflexivity|]. split.
      { right. right. repeat split; try discriminate. exists sm, w1. auto. }
      split; [right; eauto|].
      destruct (connected w); rewrite <- ?app_assoc; auto 7.
  - destruct (get_similar_chunks_trace q w) as (ctx & w2 & E & Hx & Hs & Hc & Hv).
    unfold bind at 1. unfold bind at 1. rewrite E. unfold ret at 1. unfold bind at 1.
    unfold get_session at 1. unfold bind at 1.
    rewrite debug_out.
    eexists (HistStr ""), ctx, w2, _, [similar_chunks_cmd q]. unfold ret.
    split; [reflexivity|]. cbn [with_ui executed session connected service].
    rewrite Hx, Hs, Hc, Hv. unfold retrieval_statements. auto 14.
Qed.

Lemma complete_trace (q : string) (w : world) (msgs : list message) :
  messages (session w) = Some msgs ->
  exists r w' stmts,
    complete q w = (Ret r, w') /\
    turn_statements q stmts /\
    executed w' = (executed w ++ if connected w then stmts else [])%list /\
    session w' = session w /\ connected w' = connected w.
Proof.
  intros Hm. unfold complete.
  unfold bind at 1. unfold st at 1. unfold try_except. unfold bind at 1.
  set (w0 := with_ui _ w).
  destruct (create_prompt_spec q w0 msgs Hm)
    as (hist & ctx & w2 & w1 & stmts & E & _ & _ & Hr & Hx & Hs & Hc & _).
  rewrite E.
  set (cmd := complete_cmd (model_name (session w))
                (PyStr.replace PyStr.quote "''"
                   (prompt_text (history_str (unicode_printable w) hist) ctx q))).
  assert (Ht : turn_statements q (stmts ++ [cmd])).
  { exists stmts. eexists _, _. split; [exact Hr|reflexivity]. }
  change (executed w0) with (executed w) in Hx. change (connected w0) with (connected w) in *.
  change (session w0) with (session w) in Hs.
  unfold_m. cbn. rewrite Hs, Hc.
  destruct (connected w) eqn:Hcon; cbn.
  - fold cmd. destruct (service w1 _ cmd) eqn:Hsv; cbn.
    + eexists _, _, (stmts ++ [cmd])%list. split; [reflexivity|]. cbn.
      rewrite Hx, <- app_assoc. auto.
    + repeat (case_match; cbn); eexists _, _, (stmts ++ [cmd])%list;
        (split; [reflexivity|]); cbn; rewrite Hx, <- app_assoc; auto.
  - eexists _, _, (stmts ++ [cmd])%list. split; [reflexivity|]. cbn. rewrite Hx. auto.
Qed.

Lemma main_answer_executed (r : option DataFrame) (w : world) :
  executed (snd (main_answer r w)) = executed w.
Proof.
  unfold main_answer, no_response. unfold_m. unfold_m. cbn.
  repeat (case_match; cbn); reflexivity.
Qed.

Lemma main_turn_trace (question : string) (w : world) (msgs : list message) :
  messages (session w) = Some msgs ->
  PyStr.truthy question = true ->
  exists stmts,
    turn_statements (PyStr.replace PyStr.quote "" question) stmts /\
    executed (snd (main_turn (Some question) w)) =
      (executed w ++ if connected w then stmts else [])%list.
Proof.
  intros Hm Ht. unfold main_turn. rewrite Ht.
  unfold bind at 1. unfold messages_append, session_messages, get_session.
  unfold bind at 1. unfold bind at 1. rewrite Hm. unfold ret at 1.
  unfold set_messages at 1.
  do 3 (unfold bind at 1; unfold st at 1).
  unfold bind at 1. unfold bind at 1. unfold st at 1. unfold bind at 1.
  match goal with |- context [complete ?q ?w0] =>
    destruct (complete_trace q w0 (msgs ++ [mkMessage user question]) eq_refl)
      as (r & w1 & stmts & E & Hts & Hx & Hs & Hc);
    rewrite E
  end.
  cbn in Hx, Hs, Hc.
  exists stmts. split; [assumption|].
  now rewrite main_answer_executed.
Qed.

Lemma display_trace (w : world) :
  exists w',
    display_snowflake_details w = (Ret tt, w') /\
    executed w' = (executed w ++ if connected w then [details_cmd] else [])%list /\
    session w' = session w /\ connected w' = connected w /\ service w' = service w.
Proof.
  unfold display_snowflake_details, unpack3. unfold_m. cbn.
  destruct (connected w) eqn:Hc; cbn.
  - repeat (case_match; cbn); eexists; (split; [reflexivity|]); cbn; auto.
  - eexists. split; [reflexivity|]. cbn. now rewrite app_nil_r.
Qed.

Lemma main_upload_same (u : option uploaded_file) (w : world) :
  exists w', main_upload u w = (Ret tt, w') /\ same_but_ui w w'.
Proof.
  destruct u as [f|].
  - eexists. split. + reflexivity. + now destruct w.
  - exists w. split. + reflexivity. + now destruct w.
Qed.

Lemma main_list_docs_trace (w : world) :
  exists w',
    main_list_docs w = (Ret tt, w') /\
    executed w' = (executed w ++ if connected w then [list_cmd] else [])%list /\
    session w' = session w /\ connected w' = connected w /\ service w' = service w.
Proof.
  unfold main_list_docs. unfold_m. cbn.
  destruct (connected w) eqn:Hc; cbn.
  - repeat (case_match; cbn); eexists; (split; [reflexivity|]); cbn; auto.
  - eexists. split; [reflexivity|]. cbn. now rewrite app_nil_r.
Qed.

(** After the widgets and [init_messages], the conversation is the one of
    the session, or empty when the session had none or Start Over was
    pressed. *)
Lemma init_messages_kept (v : widgets) (w : world) :
  exists w',
    init_messages (snd (config_options v w)) = (Ret tt, w') /\
    messages (session w') = Some (kept_messages v (session w)) /\
    executed w' = executed w /\ connected w' = connected w /\ service w' = service w.
Proof.
  unfold init_messages, config_options, kept_messages, session_msgs. unfold_m. cbn.
  destruct (w_clear_conversation v); cbn.
  { eexists. split; [reflexivity|]. cbn. auto. }
  destruct (messages (session w)) eqn:Hm; cbn; eexists;
    (split; [reflexivity|]); cbn; auto.
Qed.

Lemma render_messages_same (msgs : list message) :
  forall w, exists w', render_messages msgs w = (Ret tt, w') /\ same_but_ui w w'.
Proof.
  induction msgs as [|m t IH]; intros w.
  - exists w. split; [reflexivity|apply same_but_ui_refl].
  - cbn [render_messages]. unfold bind at 1. unfold st at 1.
    unfold bind at 1. unfold st at 1.
    match goal with |- context [render_messages t ?w0] =>
      destruct (IH w0) as (w' & E & Hs); rewrite E end.
    exists w'. split; [reflexivity|].
    unfold same_but_ui in *. rewrite Hs at 1. reflexivity.
Qed.

(** Everything before the chat input always goes through: [main] comes to
    its turn with the conversation kept from the session and, on a live
    cursor, two statements executed. *)
Lemma main_reaches_turn (i : inputs) (w : world) :
  exists w5,
    main i w = main_turn (in_chat_input i) w5 /\
    messages (session w5) = Some (kept_messages (in_widgets i) (session w)) /\
    executed w5 =
      (executed w ++ if connected w then [details_cmd; list_cmd] else [])%list /\
    connected w5 = connected w /\ service w5 = service w.
Proof.
  unfold main.
  do 2 (unfold bind at 1; unfold st at 1; cbv beta iota).
  unfold bind at 1.
  match goal with |- context [display_snowflake_details ?w0] =>
    destruct (display_trace w0) as (w1 & E1 & Hx1 & Hs1 & Hc1 & Hv1) end.
  rewrite E1. unfold bind at 1. unfold st at 1. cbv beta iota.
  unfold bind at 1.
  match goal with |- context [main_upload ?u ?w0] =>
    destruct (main_upload_same u w0) as (w2 & E2 & Hs2) end.
  rewrite E2.
  apply same_but_ui_fields in Hs2. destruct Hs2 as (Hx2 & Hss2 & Hc2 & Hv2 & _).
  do 2 (unfold bind at 1; unfold st at 1; cbv beta iota).
  unfold bind at 1.
  match goal with |- context [main_list_docs ?w0] =>
    destruct (main_list_docs_trace w0) as (w3 & E3 & Hx3 & Hs3 & Hc3 & Hv3) end.
  rewrite E3. unfold bind at 1.
  destruct (config_options (in_widgets i) w3) as [r3 w3'] eqn:Ecfg.
  assert (r3 = Ret tt) as -> by (unfold config_options in Ecfg; congruence).
  assert (Ew3 : w3' = snd (config_options (in_widgets i) w3)) by now rewrite Ecfg.
  unfold bind at 1.
  destruct (init_messages_kept (in_widgets i) w3)
    as (w4 & E4 & Hm4 & Hx4 & Hc4 & Hv4).
  rewrite Ew3, E4. unfold bind at 1. unfold get_session at 1.
  cbv beta iota. rewrite Hm4.
  destruct (render_messages_same (kept_messages (in_widgets i) (session w3)) w4)
    as (w5 & E5 & Hs5).
  unfold bind at 1. rewrite E5.
  pose proof (same_but_ui_fields _ _ Hs5) as (Hx5 & Hss5 & Hc5 & Hv5 & _).
  cbn in Hx1, Hs1, Hc1, Hv1, Hx2, Hss2, Hc2, Hv2, Hx3, Hs3, Hc3, Hv3.
  exists w5. split; [reflexivity|].
  assert (Hsess : session w3 = session w) by congruence.
  split; [rewrite Hss5, Hm4, Hsess; reflexivity|].
  split; [|split; congruence].
  rewrite Hx5, Hx4, Hx3, Hx2, Hx1, Hc2, Hc1.
  destruct (connected w); rewrite <- ?app_assoc; reflexivity.
Qed.

Lemma main_trace (i : inputs) (w : world) :
  exists stmts,
    executed (snd (main i w)) =
      (executed w ++ if connected w then details_cmd :: list_cmd :: stmts else [])%list /\
    match in_chat_input i with
    | Some question =>
        if PyStr.truthy question
        then turn_statements (PyStr.replace PyStr.quote "" question) stmts
        else stmts = []
    | None => stmts = []
    end.
Proof.
  destruct (main_reaches_turn i w) as (w5 & -> & Hm & Hx & Hc & _).
  destruct (in_chat_input i) as [question|] eqn:Hq.
  - destruct (PyStr.truthy question) eqn:Ht.
    + destruct (main_turn_trace question w5 _ Hm Ht) as (stmts & Hts & Hxt).
      exists stmts. split; [|assumption].
      rewrite Hxt, Hx, Hc. destruct (connected w); rewrite <- ?app_assoc; reflexivity.
    + exists []. split; [|reflexivity]. unfold main_turn. rewrite Ht. cbn. exact Hx.
  - exists []. split; [|reflexivity]. cbn. exact Hx.
Qed.

(** ** The result of the similarity search *)

Lemma append_empty_r (s : string) : s ++ "" = s.
Proof. induction s as [|c t IH]; [reflexivity|]. cbn. now rewrite IH. Qed.

Lemma join_empty_cons (x : string) (l : list string) :
  PyStr.join "" (x :: l) = x ++ PyStr.join "" l.
Proof.
  unfold PyStr.join. destruct l as [|y l]; cbn [String.concat].
  - now rewrite append_empty_r.
  - reflexivity.
Qed.

Lemma join_cells_text (sep : string) (l : list string) :
  forall i, join_cells_from i sep (map CStr l) = Ret l.
Proof.
  induction l as [|x l IH]; intros i; [reflexivity|].
  cbn [map join_cells_from]. now rewrite IH.
Qed.

Lemma series_replace_text (old new : string) (l : list string) :
  series_replace old new (map CStr l) = map CStr (map (whole_value_replace old new) l).
Proof.
  unfold series_replace, whole_value_replace. rewrite !map_map.
  apply map_ext. intros v. now destruct (String.eqb v old).
Qed.

(** When the service answers the similarity search with rows whose CHUNK
    column holds the texts [chunks], these are joined after the
    replacement of whole values. *)
Lemma get_similar_chunks_rows (q : string) (w : world) (cols : list string)
    (rows : list row) (i : nat) (chunks : list string) :
  connected w = true ->
  service w (length (executed w)) (similar_chunks_cmd q) = ExecOk (mkResult cols rows) ->
  forallb (fun r => length r =? length cols)%nat rows = true ->
  column_index "CHUNK" cols = Some i ->
  map (fun r => nth i r CNull) rows = map CStr chunks ->
  fst (get_similar_chunks q w) =
  Ret (PyStr.join "" (map (whole_value_replace "'" "") chunks)).
Proof.
  intros Hc Hs Hf Hi Hm.
  unfold get_similar_chunks. unfold_m. cbn. rewrite Hc. cbn. rewrite Hs. cbn.
  unfold pd_DataFrame. rewrite Hf. cbn. unfold df_getitem. cbn. rewrite Hi. cbn.
  rewrite Hm, series_replace_text. unfold join_cells. now rewrite join_cells_text.
Qed.

Lemma whole_value_join (l : list string) :
  PyStr.join "" (map (whole_value_replace "'" "") l) =
  PyStr.join "" (filter (fun c => negb (String.eqb c "'")) l).
Proof.
  induction l as [|x l IH]; [reflexivity|].
  cbn [map filter]. rewrite join_empty_cons, IH. unfold whole_value_replace.
  destruct (String.eqb x "'"); cbn [negb]; [reflexivity|].
  now rewrite join_empty_cons.
Qed.

Lemma count_join (c : ascii) (l : list string) :
  PyStr.count c (PyStr.join "" l) = list_sum (map (PyStr.count c) l).
Proof.
  induction l as [|x l IH]; [reflexivity|].
  rewrite join_empty_cons, count_app, IH. reflexivity.
Qed.

Lemma filter_all {A} (f : A -> bool) (l : list A) :
  (forall x, In x l -> f x = true) -> filter f l = l.
Proof.
  induction l as [|x l IH]; intros H; [reflexivity|].
  cbn [filter]. rewrite (H x (or_introl eq_refl)), IH; [reflexivity|].
  intros y Hy. apply H. now right.
Qed.

Lemma get_similar_chunks_no_rows (q : string) (w : world) (cols : list string) :
  connected w = true ->
  service w (length (executed w)) (similar_chunks_cmd q) = ExecOk (mkResult cols []) ->
  fst (get_similar_chunks q w) = Ret "".
Proof.
  intros Hc Hs.
  unfold get_similar_chunks. unfold_m. cbn. rewrite Hc. cbn. rewrite Hs. cbn.
  unfold df_getitem. cbn. now destruct (column_index "CHUNK" cols).
Qed.

(** When the service finds no row for any similarity search, the context
    segment of the prompt is empty, with or without history. *)
Lemma create_prompt_no_rows (q : string) (w : world) (msgs : list message) :
  messages (session w) = Some msgs ->
  connected w = true ->
  (forall n s, exists cols,
     service w n (similar_chunks_cmd s) = ExecOk (mkResult cols [])) ->
  exists w' stmts,
    create_prompt q w =
      (Ret (prompt_text
              (history_str (unicode_printable w) (history_of (session w) msgs)) "" q),
       w') /\
    retrieval_statements q stmts /\
    executed w' = (executed w ++ stmts)%list /\
    session w' = session w /\ connected w' = true.
Proof.
  intros Hm Hc H0.
  destruct (create_prompt_spec q w msgs Hm)
    as (hist & ctx & w2 & w' & stmts & E & _ & Hcases & Hr & Hx & Hss & Hcc & _ & ->).
  rewrite Hc in Hx, Hcc.
  assert (Hctx : ctx = "").
  { destruct Hcases as [(_ & _ & Eg & _)|[(_ & _ & _ & Eg & _)|(_ & _ & _ & sm & w1 & Es & Eg & _)]].
    - destruct (H0 (length (executed w)) q) as (cols & Hs).
      pose proof (get_similar_chunks_no_rows q w cols Hc Hs) as Hempty.
      rewrite Eg in Hempty. now injection Hempty.
    - destruct (H0 (length (executed w)) q) as (cols & Hs).
      pose proof (get_similar_chunks_no_rows q w cols Hc Hs) as Hempty.
      rewrite Eg in Hempty. now injection Hempty.
    - destruct (summarize_trace (window msgs) q w) as (s0 & w0 & E0 & _ & _ & _ & Hc1 & Hv1).
      rewrite Es in E0. injection E0 as <- <-.
      destruct (H0 (length (executed w1)) sm) as (cols & Hs).
      rewrite <- Hv1 in Hs. rewrite Hc in Hc1.
      pose proof (get_similar_chunks_no_rows sm w1 cols Hc1 Hs) as Hempty.
      rewrite Eg in Hempty. now injection Hempty. }
  subst ctx. exists w', stmts. auto.
Qed.

(** On a live cursor [complete] gives the service the completion
    statement for the prompt [create_prompt] returned, and returns. *)
Lemma complete_statement (q : string) (w : world) (p : string) (w1 : world) :
  create_prompt q (snd (st (UiWrite ("Creating prompt for question: " ++ q)) w)) =
    (Ret p, w1) ->
  connected w1 = true ->
  exists r w',
    complete q w = (Ret r, w') /\
    executed w' =
      (executed w1 ++
       [complete_cmd (model_name (session w1)) (PyStr.replace PyStr.quote "''" p)])%list.
Proof.
  intros E Hc. unfold complete.
  unfold bind at 1. unfold try_except. unfold bind at 1.
  destruct (st (UiWrite ("Creating prompt for question: " ++ q)) w) as [r0 w0] eqn:E0.
  unfold st in E0. injection E0 as <- <-. cbn [snd] in E. rewrite E.
  unfold_m. cbn. rewrite Hc. cbn.
  destruct (service w1 _ _) eqn:Hsv; cbn.
  - eexists _, _. split; reflexivity.
  - repeat (case_match; cbn); eexists _, _; split; reflexivity.
Qed.

(** C6 as stated fails: a chunk that is a lone single quote is not part
    of what [get_similar_chunks] returns. *)
Lemma similar_chunks_drops_quote_chunk :
  service Sample.world_quote_chunk 0 (similar_chunks_cmd "X") =
    ExecOk (mkResult ["CHUNK"; "RELATIVE_PATH"] [[CStr "'"; CStr "a.pdf"]]) /\
  fst (get_similar_chunks "X" Sample.world_quote_chunk) = Ret "" /\
  fst (get_similar_chunks "X" Sample.world_quote_chunk) <> Ret (PyStr.join "" ["'"]).
Proof.
  split; [reflexivity|]. split; [reflexivity|]. discriminate.
Qed.

(** C10. The replacement on the CHUNK column works on whole values: what
    [get_similar_chunks] returns is the chunk texts joined, where only the
    chunks that are exactly one single quote are left out; every single
    quote inside a longer chunk is still there. *)
Theorem chunk_quotes_preserved (q : string) (w : world) (cols : list string)
    (rows : list row) (i : nat) (chunks : list string) :
  connected w = true ->
  service w (length (executed w)) (similar_chunks_cmd q) = ExecOk (mkResult cols rows) ->
  forallb (fun r => length r =? length cols)%nat rows = true ->
  column_index "CHUNK" cols = Some i ->
  map (fun r => nth i r CNull) rows = map CStr chunks ->
  exists s,
    fst (get_similar_chunks q w) = Ret s /\
    s = PyStr.join "" (filter (fun c => negb (String.eqb c "'")) chunks) /\
    PyStr.count PyStr.quote s =
      list_sum (map (PyStr.count PyStr.quote)
                    (filter (fun c => negb (String.eqb c "'")) chunks)) /\
    ((forall c, In c chunks -> c <> "'") -> s = PyStr.join "" chunks).
Proof.
  intros Hc Hs Hf Hi Hm.
  exists (PyStr.join "" (filter (fun c => negb (String.eqb c "'")) chunks)).
  split; [|split; [reflexivity|split]].
  - rewrite <- whole_value_join. now apply (get_similar_chunks_rows q w cols rows i).
  - apply count_join.
  - intros Hall. rewrite filter_all; [reflexivity|].
    intros c Hin. apply negb_true_iff, String.eqb_neq. now apply Hall.
Qed.

Lemma chunk_quotes_preserved_witness :
  exists s,
    fst (get_similar_chunks "X" Sample.world_chunks) = Ret s /\
    s = PyStr.join "" (filter (fun c => negb (String.eqb c "'")) ["it's a"; "'"; "b'c"]) /\
    PyStr.count PyStr.quote s =
      list_sum (map (PyStr.count PyStr.quote)
                    (filter (fun c => negb (String.eqb c "'")) ["it's a"; "'"; "b'c"])) /\
    ((forall c, In c ["it's a"; "'"; "b'c"] -> c <> "'") ->
     s = PyStr.join "" ["it's a"; "'"; "b'c"]).
Proof.
  apply (chunk_quotes_preserved "X" Sample.world_chunks ["CHUNK"; "RELATIVE_PATH"]
           Sample.chunk_rows 0%nat ["it's a"; "'"; "b'c"]); reflexivity.
Defined.

(** ** The summarizer and the prompt *)

Arguments pd_DataFrame : simpl never.
Arguments df_empty : simpl never.
Arguments df_iloc0_getitem : simpl never.
Arguments cell_replace : simpl never.

(** C7, as amended. [summarize_question_with_history] always returns and
    raises nothing; what it returns is the empty string or the text of the
    model's answer with every single quote removed; it is the empty string
    when there is no cursor and when the service answers with an error. *)
Theorem summarize_never_raises (h : list string) (q : string) (w : world) :
  exists s w',
    summarize_question_with_history h q w = (Ret s, w') /\
    (s = "" \/
     exists rs text,
       service w (length (executed w)) (summary_cmd (model_name (session w)) h q) = ExecOk rs /\
       df_iloc0_getitem (mkFrame (rs_description rs) (rs_rows rs)) "RESPONSE" = Ret (CStr text) /\
       s = PyStr.replace PyStr.quote "" text) /\
    (connected w = false -> s = "") /\
    (forall m,
       service w (length (executed w)) (summary_cmd (model_name (session w)) h q) = ExecError m ->
       s = "").
Proof.
  unfold summarize_question_with_history, summary_cmd. unfold_m. cbn.
  destruct (connected w) eqn:Hc; cbn.
  - destruct (service w _ _) as [m|[cols rows]] eqn:Hs; cbn.
    + eexists _, _. split; [reflexivity|]. split; [now left|].
      split; [discriminate|reflexivity].
    + destruct (pd_DataFrame rows cols) as [df|e] eqn:Hf; cbn;
        [|eexists _, _; split; [reflexivity|]; split; [now left|];
          split; discriminate].
      assert (df = mkFrame cols rows) as ->.
      { unfold pd_DataFrame in Hf.
        match type of Hf with (if ?b then _ else _) = _ => destruct b end; congruence. }
      destruct (df_empty (mkFrame cols rows)) eqn:He; cbn;
        [destruct (debug (session w)); eexists _, _; (split; [reflexivity|]);
         (split; [now left|]); split; discriminate|].
      destruct (df_iloc0_getitem (mkFrame cols rows) "RESPONSE") as [[text|]|e] eqn:Hg;
        cbn; unfold cell_replace; cbn;
        try (eexists _, _; split; [reflexivity|]; split; [now left|];
             split; discriminate).
      destruct (debug (session w)); eexists _, _; (split; [reflexivity|]);
        (split; [right; exists (mkResult cols rows), text; auto|]); split; discriminate.
  - eexists _, _. split; [reflexivity|]. split; [now left|].
    split; [reflexivity|]. intros m _. reflexivity.
Qed.

(** C7 as stated fails: the model's text comes back without its quote. *)
Lemma summary_strips_quotes :
  service Sample.world_chunks 0 (summary_cmd "mistral-7b" ["a"; "b"] "X") =
    ExecOk (mkResult ["RESPONSE"] [[CStr "What's X made of?"]]) /\
  fst (summarize_question_with_history ["a"; "b"] "X" Sample.world_chunks) =
    Ret "Whats X made of?" /\
  "Whats X made of?" <> "What's X made of?" /\
  "Whats X made of?" <> "".
Proof.
  split; [reflexivity|]. split; [reflexivity|]. split; discriminate.
Qed.





(** ** The chat turn *)

Lemma similar_chunks_cmd_quotes (s : string) :
  PyStr.count PyStr.quote (similar_chunks_cmd s) = (4 + PyStr.count PyStr.quote s)%nat.
Proof.
  unfold similar_chunks_cmd. rewrite !count_app.
  change (PyStr.of_int num_chunks) with "3". cbn [PyStr.count]. cbn. lia.
Qed.

(** C8. In a run of [main] with a question, every single quote is removed
    from the question before [complete] is called; on a live cursor the
    statements of the turn are, in this order, a summarisation (only when
    there is history to use), one similarity search and the completion,
    and the text put into the similarity search has no single quote: it is
    the question without its quotes, or the summary without its quotes. The
    only single quotes of that statement are the four of its own text. *)
Theorem question_quotes_removed (i : inputs) (w : world) (question : string) :
  in_chat_input i = Some question ->
  PyStr.truthy question = true ->
  connected w = true ->
  PyStr.mem PyStr.quote (PyStr.replace PyStr.quote "" question) = false /\
  list_ascii_of_string (PyStr.replace PyStr.quote "" question) =
    filter (fun c => negb (Ascii.eqb c PyStr.quote)) (list_ascii_of_string question) /\
  exists before s m p,
    executed (snd (main i w)) =
      (executed w ++ [details_cmd; list_cmd] ++ before ++
       [similar_chunks_cmd s; complete_cmd m p])%list /\
    PyStr.mem PyStr.quote s = false /\
    PyStr.count PyStr.quote (similar_chunks_cmd s) = 4%nat /\
    ((before = [] /\ s = PyStr.replace PyStr.quote "" question) \/
     (exists m' hp, before = [complete_cmd m' hp])).
Proof.
  intros Hq Ht Hc.
  split; [apply replace_quote_mem|]. split; [apply replace_quote_filter|].
  destruct (main_trace i w) as (stmts & Hx & Hts).
  rewrite Hq, Ht in Hts. rewrite Hc in Hx.
  destruct Hts as (retrieval & m & p & [->|(m' & hp & s & Hs & ->)] & ->).
  - exists [], (PyStr.replace PyStr.quote "" question), m, p.
    split; [exact Hx|]. split; [apply replace_quote_mem|]. split; [|now left].
    rewrite similar_chunks_cmd_quotes.
    now rewrite (proj1 (mem_count _ _) (replace_quote_mem question)).
  - exists [complete_cmd m' hp], s, m, p.
    split; [exact Hx|]. split; [exact Hs|]. split; [|right; eauto].
    rewrite similar_chunks_cmd_quotes. now rewrite (proj1 (mem_count _ _) Hs).
Qed.

Lemma question_quotes_removed_witness :
  PyStr.mem PyStr.quote (PyStr.replace PyStr.quote "" "What's X?") = false /\
  list_ascii_of_string (PyStr.replace PyStr.quote "" "What's X?") =
    filter (fun c => negb (Ascii.eqb c PyStr.quote)) (list_ascii_of_string "What's X?") /\
  exists before s m p,
    executed (snd (main (Sample.ask "What's X?") Sample.first_world)) =
      (executed Sample.first_world ++ [details_cmd; list_cmd] ++ before ++
       [similar_chunks_cmd s; complete_cmd m p])%list /\
    PyStr.mem PyStr.quote s = false /\
    PyStr.count PyStr.quote (similar_chunks_cmd s) = 4%nat /\
    ((before = [] /\ s = PyStr.replace PyStr.quote "" "What's X?") \/
     (exists m' hp, before = [complete_cmd m' hp])).
Proof.
  exact (question_quotes_removed (Sample.ask "What's X?") Sample.first_world
           "What's X?" eq_refl eq_refl eq_refl).
Defined.

(** ** The upload *)

Lemma get_app_head (a b : string) (c : ascii) :
  String.get 0 a = Some c -> String.get 0 (a ++ b) = Some c.
Proof. destruct a; [discriminate|]. cbn. auto. Qed.





Lemma disk_exists_remove (p : string) (d : list (string * list Byte.byte)) :
  disk_exists p (disk_remove p d) = false.
Proof.
  unfold disk_exists, disk_remove. induction d as [|x d IH]; [reflexivity|].
  cbn [filter]. destruct (String.eqb (fst x) p) eqn:E; cbn [negb existsb]; [exact IH|].
  now rewrite E, IH.
Qed.

Lemma disk_exists_new (p : string) (b : list Byte.byte) (d : list (string * list Byte.byte)) :
  disk_exists p ((p, b) :: d) = true.
Proof. unfold disk_exists. cbn. now rewrite String.eqb_refl. Qed.

Lemma disk_remove_new (p : string) (b : list Byte.byte) (d : list (string * list Byte.byte)) :
  disk_remove p ((p, b) :: d) = disk_remove p d.
Proof. unfold disk_remove. cbn. now rewrite String.eqb_refl. Qed.

Arguments disk_exists : simpl never.
Arguments disk_remove : simpl never.

(** With both arguments, a scratch file that was created and written is
    gone when the function returns, whatever the PUT did. *)
Lemma upload_removes_written_file (f : uploaded_file) (w : world) (p : string) :
  tmp_path (tmp w) = Some p ->
  tmp_write_ok (tmp w) = true ->
  exists w',
    upload_to_snowflake (PUploaded f) PCursor w = (Ret tt, w') /\
    disk_exists p (disk w') = false /\
    executed w' = (executed w ++ [put_command_of p])%list.
Proof.
  intros Hp Hw. unfold upload_to_snowflake, NamedTemporaryFile, file_write,
    assign_temp_file_path, read_temp_file_path, os_remove, os_path_exists.
  unfold_m. cbn. rewrite Hp. cbn. rewrite Hw. cbn.
  destruct (service w _ _) eqn:Hs; cbn;
    repeat (rewrite ?disk_exists_new, ?disk_remove_new, ?disk_exists_remove; cbn);
    eexists; (split; [reflexivity|]); cbn;
    rewrite ?disk_exists_remove; auto.
Qed.

(** C4, where the code goes wrong. When the scratch file is created and
    the write into it fails, [temp_file_path] is still unassigned in the
    [finally] block: the call ends in an UnboundLocalError, nothing was
    sent to the stage, and the scratch file is still on disk. *)
Theorem upload_leaves_scratch_file (f : uploaded_file) (w : world) (p : string) :
  tmp_path (tmp w) = Some p ->
  tmp_write_ok (tmp w) = false ->
  exists w',
    upload_to_snowflake (PUploaded f) PCursor w =
      (Raise (mkExn UnboundLocalError
         "cannot access local variable 'temp_file_path' where it is not associated with a value"),
       w') /\
    disk_exists p (disk w') = true /\
    executed w' = executed w /\
    ui w' = (ui w ++ [UiError "Error uploading file to Snowflake: No space left on device"])%list.
Proof.
  intros Hp Hw. unfold upload_to_snowflake, NamedTemporaryFile, file_write,
    assign_temp_file_path, read_temp_file_path, os_remove, os_path_exists.
  unfold_m. cbn. rewrite Hp. cbn. rewrite Hw. cbn.
  eexists. split; [reflexivity|]. cbn. rewrite disk_exists_new. auto.
Qed.

Lemma upload_leaves_scratch_file_witness :
  exists w',
    upload_to_snowflake (PUploaded Sample.report) PCursor Sample.world_disk_full =
      (Raise (mkExn UnboundLocalError
         "cannot access local variable 'temp_file_path' where it is not associated with a value"),
       w') /\
    disk_exists "/tmp/tmpab12" (disk w') = true /\
    executed w' = executed Sample.world_disk_full /\
    ui w' = (ui Sample.world_disk_full ++
             [UiError "Error uploading file to Snowflake: No space left on device"])%list.
Proof.
  exact (upload_leaves_scratch_file Sample.report Sample.world_disk_full "/tmp/tmpab12"
           eq_refl eq_refl).
Defined.

(** ** A turn without a response *)

Lemma complete_none (q : string) (w : world) (msgs : list message) :
  messages (session w) = Some msgs ->
  (forall n cmd, no_rows (service w n cmd) = true) ->
  exists w', complete q w = (Ret None, w') /\ session w' = session w.
Proof.
  intros Hm Hno. unfold complete.
  unfold bind at 1. unfold st at 1. unfold try_except. unfold bind at 1.
  set (w0 := with_ui _ w).
  destruct (create_prompt_spec q w0 msgs Hm)
    as (hist & ctx & w2 & w1 & stmts & E & _ & _ & _ & _ & Hs & Hc & Hv & _).
  rewrite E. change (session w0) with (session w) in Hs.
  change (service w0) with (service w) in Hv.
  unfold_m. cbn.
  destruct (connected w1); cbn; [|eexists; split; [reflexivity|exact Hs]].
  match goal with |- context [service w1 ?n ?cmd] =>
    pose proof (Hno n cmd) as Hn; rewrite <- Hv in Hn;
    destruct (service w1 n cmd) as [m|[cols rows]] eqn:Hsv end; cbn.
  - eexists; split; [reflexivity|exact Hs].
  - cbn in Hn. destruct rows; [|discriminate]. cbn.
    eexists; split; [reflexivity|exact Hs].
Qed.

Lemma main_turn_no_response (question : string) (w : world) (msgs : list message) :
  messages (session w) = Some msgs ->
  PyStr.truthy question = true ->
  (forall n cmd, no_rows (service w n cmd) = true) ->
  exists w',
    main_turn (Some question) w =
      (Raise (mkExn UnboundLocalError
         "cannot access local variable 'res_text' where it is not associated with a value"),
       w') /\
    messages (session w') = Some (msgs ++ [mkMessage user question])%list /\
    In (UiMarkdown "No response available.") (ui w').
Proof.
  intros Hm Ht Hno. unfold main_turn. rewrite Ht.
  unfold bind at 1. unfold messages_append, session_messages, get_session.
  unfold bind at 1. unfold bind at 1. rewrite Hm. unfold ret at 1.
  unfold set_messages at 1.
  do 3 (unfold bind at 1; unfold st at 1).
  unfold bind at 1. unfold bind at 1. unfold st at 1. unfold bind at 1.
  match goal with |- context [complete ?q ?w0] =>
    destruct (complete_none q w0 (msgs ++ [mkMessage user question]) eq_refl Hno)
      as (w1 & E & Hs);
    rewrite E
  end.
  cbn in Hs.
  eexists. split; [reflexivity|]. cbn. rewrite Hs. cbn. split; [reflexivity|].
  apply in_or_app. right. now left.
Qed.

Lemma main_no_response (i : inputs) (w : world) (question : string) :
  in_chat_input i = Some question ->
  PyStr.truthy question = true ->
  (forall n cmd, no_rows (service w n cmd) = true) ->
  exists w',
    main i w =
      (Raise (mkExn UnboundLocalError
         "cannot access local variable 'res_text' where it is not associated with a value"),
       w') /\
    messages (session w') =
      Some (kept_messages (in_widgets i) (session w) ++ [mkMessage user question])%list /\
    In (UiMarkdown "No response available.") (ui w').
Proof.
  intros Hq Ht Hno.
  destruct (main_reaches_turn i w) as (w5 & -> & Hm & _ & _ & Hv).
  rewrite Hq. apply main_turn_no_response; [exact Hm|exact Ht|].
  intros n cmd. rewrite Hv. apply Hno.
Qed.

Lemma alternating_two_users (msgs : list message) (a b : string) :
  alternating (msgs ++ [mkMessage user a; mkMessage user b]) = false.
Proof.
  assert (H : forall n l, (length l <= n)%nat ->
            alternating (l ++ [mkMessage user a; mkMessage user b]) = false /\
            forall m, alternating (m :: l ++ [mkMessage user a; mkMessage user b]) = false).
  { induction n as [|n IH]; intros l Hl.
    - destruct l; [|cbn in Hl; lia]. split; [reflexivity|].
      intros m. cbn. destruct (role_eqb (msg_role m) user); reflexivity.
    - destruct l as [|x l]; [apply IH; cbn; lia|].
      cbn in Hl. destruct (IH l ltac:(lia)) as (H0 & H1).
      split; [apply H1|].
      intros m. cbn [app alternating].
      destruct (role_eqb (msg_role m) user); [|reflexivity].
      destruct (role_eqb (msg_role x) assistant); [|reflexivity].
      exact H0. }
  exact (proj1 (H (length msgs) msgs (le_n _))).
Qed.

(** C1, where the code goes wrong. In a run of [main] with a question,
    when the service gives only errors or empty results, the run shows
    that there is no response and then ends in an UnboundLocalError on
    [res_text]: the conversation ends with the question, and no assistant
    message or surrogate follows it. *)
Theorem turn_without_response_raises (i : inputs) (w : world) (question : string) :
  in_chat_input i = Some question ->
  PyStr.truthy question = true ->
  (forall n cmd, no_rows (service w n cmd) = true) ->
  exists w',
    main i w =
      (Raise (mkExn UnboundLocalError
         "cannot access local variable 'res_text' where it is not associated with a value"),
       w') /\
    messages (session w') =
      Some (kept_messages (in_widgets i) (session w) ++ [mkMessage user question])%list /\
    In (UiMarkdown "No response available.") (ui w').
Proof.
  intros Hq Ht Hno.
  destruct (main_reaches_turn i w) as (w5 & -> & Hm & _ & _ & Hv).
  rewrite Hq. apply main_turn_no_response; [exact Hm|exact Ht|].
  intros n cmd. rewrite Hv. apply Hno.
Qed.

Lemma turn_without_response_raises_witness :
  exists w',
    main (Sample.ask "X?") (start_world initial_session [] Sample.env_down) =
      (Raise (mkExn UnboundLocalError
         "cannot access local variable 'res_text' where it is not associated with a value"),
       w') /\
    messages (session w') = Some [mkMessage user "X?"] /\
    In (UiMarkdown "No response available.") (ui w').
Proof.
  exact (turn_without_response_raises (Sample.ask "X?")
           (start_world initial_session [] Sample.env_down) "X?"
           eq_refl eq_refl (fun _ _ => eq_refl)).
Defined.

(** C9, where the code goes wrong. From any reachable session, two runs
    with a question each, while the service gives only errors or empty
    results, leave a conversation that ends with the two questions, both
    from the user: a reachable state in which the roles do not
    alternate. *)
Theorem failed_turn_breaks_alternation (s : session_state) (e : environment)
    (i1 i2 : inputs) (q1 q2 : string) :
  reachable s ->
  in_chat_input i1 = Some q1 -> PyStr.truthy q1 = true ->
  in_chat_input i2 = Some q2 -> PyStr.truthy q2 = true ->
  w_clear_conversation (in_widgets i2) = false ->
  (forall n cmd, no_rows (env_service e n cmd) = true) ->
  reachable (script_run e i2 (script_run e i1 s)) /\
  messages (script_run e i2 (script_run e i1 s)) =
    Some (kept_messages (in_widgets i1) s ++
          [mkMessage user q1; mkMessage user q2])%list /\
  alternating (session_msgs (script_run e i2 (script_run e i1 s))) = false.
Proof.
  intros Hr H1 T1 H2 T2 Hk Hno.
  split; [do 2 apply reach_run; exact Hr|].
  assert (Hm : messages (script_run e i2 (script_run e i1 s)) =
               Some (kept_messages (in_widgets i1) s ++
                     [mkMessage user q1; mkMessage user q2])%list).
  { unfold script_run at 1.
    destruct (main_no_response i2 (start_world (script_run e i1 s) [] e) q2 H2 T2 Hno)
      as (w2 & E2 & Hm2 & _).
    rewrite E2. cbn [snd]. rewrite Hm2. cbn [start_world session].
    unfold kept_messages at 1. rewrite Hk. unfold session_msgs, script_run.
    destruct (main_no_response i1 (start_world s [] e) q1 H1 T1 Hno)
      as (w1 & E1 & Hm1 & _).
    rewrite E1. cbn [snd]. rewrite Hm1. cbn [start_world session].
    now rewrite <- app_assoc. }
  split; [exact Hm|].
  unfold session_msgs. rewrite Hm. apply alternating_two_users.
Qed.

Lemma failed_turn_breaks_alternation_witness :
  reachable Sample.session_after_two /\
  messages Sample.session_after_two =
    Some [mkMessage user "X?"; mkMessage user "Y?"] /\
  alternating (session_msgs Sample.session_after_two) = false.
Proof.
  exact (failed_turn_breaks_alternation initial_session Sample.env_down
           (Sample.ask "X?") (Sample.ask "Y?") "X?" "Y?"
           reach_initial eq_refl eq_refl eq_refl eq_refl eq_refl (fun _ _ => eq_refl)).
Defined.

(** * Further properties of the script *)

(** ** The sliding window, exactly *)

(** X1. [get_chat_history] never fails once the conversation exists, also
    when it is empty; it returns exactly min(L-1, 6) entries of a
    conversation of length L: with [slide_window = 7] the window holds six
    earlier messages, the seventh place being the pending one. *)
Theorem chat_history_length (w : world) (msgs : list message) :
  messages (session w) = Some msgs ->
  exists chat_history,
    get_chat_history w = (Ret chat_history, w) /\
    length chat_history = Nat.min (length msgs - 1) 6 /\
    (length msgs <= 1 -> chat_history = [])%nat.
Proof.
  intros Hm. exists (window msgs).
  split; [now apply get_chat_history_total|].
  assert (Hl : length (window msgs) = Nat.min (length msgs - 1) 6).
  { unfold window.
    rewrite length_map, length_skipn, removelast_firstn_len, length_firstn. lia. }
  split; [exact Hl|].
  intros Hle. destruct (window msgs) as [|x l]; [reflexivity|].
  cbn [length] in Hl. lia.
Qed.

Lemma chat_history_length_witness :
  exists chat_history,
    get_chat_history Sample.world_three = (Ret chat_history, Sample.world_three) /\
    length chat_history = Nat.min (length Sample.three_messages - 1) 6 /\
    (length Sample.three_messages <= 1 -> chat_history = [])%nat.
Proof.
  exact (chat_history_length Sample.world_three Sample.three_messages eq_refl).
Defined.

(** ** Retrieval and completion never raise *)

(** X2. [get_similar_chunks] raises nothing and leaves session state as
    it is; it returns the empty string when there is no cursor (nothing is
    executed then), when the service rejects the statement (the error is
    shown) and when the result has no CHUNK column. *)
Theorem get_similar_chunks_never_raises (q : string) (w : world) :
  exists s w',
    get_similar_chunks q w = (Ret s, w') /\
    session w' = session w /\
    (connected w = false -> s = "" /\ executed w' = executed w) /\
    (forall m,
       connected w = true ->
       service w (length (executed w)) (similar_chunks_cmd q) = ExecError m ->
       s = "" /\ In (UiError ("Error fetching similar chunks: " ++ m)) (ui w')) /\
    (forall cols rows,
       connected w = true ->
       service w (length (executed w)) (similar_chunks_cmd q) = ExecOk (mkResult cols rows) ->
       column_index "CHUNK" cols = None ->
       s = "").
Proof.
  unfold get_similar_chunks. unfold_m. cbn.
  destruct (connected w) eqn:Hc; cbn.
  - destruct (service w _ _) as [m|[cols rows]] eqn:Hs; cbn.
    + eexists _, _. split; [reflexivity|]. cbn. split; [reflexivity|].
      split; [discriminate|]. split; [|discriminate].
      intros m' _ E. injection E as <-. split; [reflexivity|].
      apply in_or_app. right. now left.
    + destruct (pd_DataFrame rows cols) as [df|e] eqn:Hf; cbn.
      * assert (df = mkFrame cols rows) as ->.
        { unfold pd_DataFrame in Hf.
          match type of Hf with (if ?b then _ else _) = _ => destruct b end; congruence. }
        unfold df_getitem. cbn [df_columns df_rows].
        destruct (column_index "CHUNK" cols) as [i|] eqn:Hi; cbn.
        -- destruct (join_cells _ _) eqn:Hj; cbn; eexists _, _;
             (split; [reflexivity|]); cbn; (split; [reflexivity|]);
             (split; [discriminate|]); (split; [discriminate|]);
             intros c r _ E Hn; injection E as <- <-; congruence.
        -- eexists _, _. split; [reflexivity|]. cbn. split; [reflexivity|].
           split; [discriminate|]. split; [discriminate|]. reflexivity.
      * eexists _, _. split; [reflexivity|]. cbn. split; [reflexivity|].
        split; [discriminate|]. split; [discriminate|]. reflexivity.
  - eexists _, _. split; [reflexivity|]. cbn. split; [reflexivity|].
    split; [auto|]. split; discriminate.
Qed.

Lemma get_similar_chunks_never_raises_witness :
  exists s w',
    get_similar_chunks "X" Sample.world_three = (Ret s, w') /\
    s = "" /\
    In (UiError "Error fetching similar chunks: Network is unreachable") (ui w').
Proof.
  destruct (get_similar_chunks_never_raises "X" Sample.world_three)
    as (s & w' & E & _ & _ & He & _).
  exists s, w'. split; [exact E|].
  exact (He "Network is unreachable" eq_refl eq_refl).
Defined.

(** X3. [complete] raises nothing, whatever the session and the service
    are: every failure inside it ends in None. When it returns a frame, the
    frame has at least one row and as many cells in each row as columns. *)
Theorem complete_never_raises (q : string) (w : world) :
  exists r w',
    complete q w = (Ret r, w') /\
    (r = None \/
     exists cols row rows,
       r = Some (mkFrame cols (row :: rows)) /\
       forallb (fun x => length x =? length cols)%nat (row :: rows) = true).
Proof.
  unfold complete. unfold bind at 1. unfold st at 1. unfold try_except.
  unfold bind at 1.
  match goal with |- context [create_prompt q ?w0] =>
    destruct (create_prompt q w0) as [[p|e] w1] end.
  - unfold_m. cbn. destruct (connected w1); cbn;
      [|eexists _, _; split; [reflexivity|now left]].
    destruct (service w1 _ _) as [m|[cols rows]]; cbn;
      [eexists _, _; split; [reflexivity|now left]|].
    destruct rows as [|row rows]; cbn;
      [eexists _, _; split; [reflexivity|now left]|].
    destruct (pd_DataFrame (row :: rows) cols) as [df|e] eqn:Hf; cbn;
      [|eexists _, _; split; [reflexivity|now left]].
    eexists _, _. split; [reflexivity|]. right.
    unfold pd_DataFrame in Hf.
    match type of Hf with (if ?b then _ else _) = _ => destruct b eqn:Hb end;
      [|discriminate].
    injection Hf as <-. eauto.
  - cbn. eexists _, _. split; [reflexivity|now left].
Qed.

(** ** Quotes in the completion statement *)

Lemma count_replace_doubled (s : string) :
  PyStr.count PyStr.quote (PyStr.replace PyStr.quote "''" s) =
  (2 * PyStr.count PyStr.quote s)%nat.
Proof.
  induction s as [|c t IH]; [reflexivity|].
  cbn [PyStr.replace PyStr.count].
  destruct (Ascii.eqb c PyStr.quote) eqn:E.
  - rewrite count_app, IH. cbn. lia.
  - cbn [PyStr.count]. rewrite E, IH. lia.
Qed.

Lemma replace_doubled_other_chars (s : string) :
  filter (fun c => negb (Ascii.eqb c PyStr.quote))
         (list_ascii_of_string (PyStr.replace PyStr.quote "''" s)) =
  filter (fun c => negb (Ascii.eqb c PyStr.quote)) (list_ascii_of_string s).
Proof.
  induction s as [|c t IH]; [reflexivity|].
  cbn [PyStr.replace list_ascii_of_string filter].
  destruct (Ascii.eqb c PyStr.quote) eqn:E; cbn [negb].
  - cbn. exact IH.
  - cbn [list_ascii_of_string filter]. rewrite E. cbn [negb]. now rewrite IH.
Qed.

Lemma complete_cmd_quotes (m p : string) :
  PyStr.count PyStr.quote (complete_cmd m p) =
  (4 + PyStr.count PyStr.quote m + PyStr.count PyStr.quote p)%nat.
Proof.
  unfold complete_cmd. rewrite !count_app. cbn. lia.
Qed.

(** X4. On a live cursor the last statement [complete] executes is the
    completion for the prompt [create_prompt] returned, with every single
    quote of the prompt doubled and nothing else changed: the statement
    has four quotes of its own, those of the model name and twice those of
    the prompt. *)
Theorem completion_statement_quotes (q : string) (w : world) (msgs : list message) :
  messages (session w) = Some msgs ->
  connected w = true ->
  exists p before r w',
    fst (create_prompt q (snd (st (UiWrite ("Creating prompt for question: " ++ q)) w))) =
      Ret p /\
    complete q w = (Ret r, w') /\
    executed w' =
      (before ++ [complete_cmd (model_name (session w))
                    (PyStr.replace PyStr.quote "''" p)])%list /\
    PyStr.count PyStr.quote
      (complete_cmd (model_name (session w)) (PyStr.replace PyStr.quote "''" p)) =
      (4 + PyStr.count PyStr.quote (model_name (session w)) +
       2 * PyStr.count PyStr.quote p)%nat /\
    filter (fun c => negb (Ascii.eqb c PyStr.quote))
           (list_ascii_of_string (PyStr.replace PyStr.quote "''" p)) =
    filter (fun c => negb (Ascii.eqb c PyStr.quote)) (list_ascii_of_string p).
Proof.
  intros Hm Hc.
  destruct (create_prompt_spec q
              (snd (st (UiWrite ("Creating prompt for question: " ++ q)) w)) msgs Hm)
    as (hist & ctx & w2 & w1 & stmts & E & _ & _ & _ & _ & Hs & Hc1 & _).
  cbn in Hs, Hc1. rewrite Hc in Hc1.
  destruct (complete_statement q w _ _ E Hc1) as (r & w' & Ec & Hx).
  eexists _, (executed w1), r, w'.
  split; [now rewrite E|]. split; [exact Ec|].
  split; [now rewrite Hx, Hs|].
  split; [now rewrite complete_cmd_quotes, count_replace_doubled|].
  apply replace_doubled_other_chars.
Qed.

Lemma completion_statement_quotes_witness :
  exists p before r w',
    fst (create_prompt "X"
           (snd (st (UiWrite ("Creating prompt for question: " ++ "X")) Sample.world_chunks))) =
      Ret p /\
    complete "X" Sample.world_chunks = (Ret r, w') /\
    executed w' =
      (before ++ [complete_cmd (model_name (session Sample.world_chunks))
                    (PyStr.replace PyStr.quote "''" p)])%list /\
    PyStr.count PyStr.quote
      (complete_cmd (model_name (session Sample.world_chunks))
         (PyStr.replace PyStr.quote "''" p)) =
      (4 + PyStr.count PyStr.quote (model_name (session Sample.world_chunks)) +
       2 * PyStr.count PyStr.quote p)%nat /\
    filter (fun c => negb (Ascii.eqb c PyStr.quote))
           (list_ascii_of_string (PyStr.replace PyStr.quote "''" p)) =
    filter (fun c => negb (Ascii.eqb c PyStr.quote)) (list_ascii_of_string p).
Proof.
  exact (completion_statement_quotes "X" Sample.world_chunks Sample.three_messages
           eq_refl eq_refl).
Defined.

(** ** The page before the chat input *)


(** X6. [display_snowflake_details] raises nothing and leaves session
    state as it is. With no cursor it executes nothing and says so; on a
    live cursor it executes one statement, and shows the three names when
    the first row has three cells and one error otherwise. *)
Theorem display_never_raises (w : world) :
  exists w',
    display_snowflake_details w = (Ret tt, w') /\
    session w' = session w /\
    (connected w = false ->
     executed w' = executed w /\
     ui w' = (ui w ++ [UiWrite "No Snowflake connection available."])%list) /\
    (connected w = true ->
     executed w' = (executed w ++ [details_cmd])%list /\
     (forall desc a b c rest,
        service w (length (executed w)) details_cmd =
          ExecOk (mkResult desc ([a; b; c] :: rest)) ->
        ui w' = (ui w ++ [UiWrite ("**Warehouse**: " ++ cell_str a);
                          UiWrite ("**Database**: " ++ cell_str b);
                          UiWrite ("**Schema**: " ++ cell_str c)])%list) /\
     (forall m,
        service w (length (executed w)) details_cmd = ExecError m ->
        ui w' = (ui w ++ [UiWrite "Error fetching Snowflake connection details:";
                          UiWrite m])%list) /\
     (forall desc,
        service w (length (executed w)) details_cmd = ExecOk (mkResult desc []) ->
        ui w' = (ui w ++ [UiWrite "Error fetching Snowflake connection details:";
                          UiWrite "cannot unpack non-iterable NoneType object"])%list)).
Proof.
  unfold display_snowflake_details, unpack3. unfold_m. cbn.
  destruct (connected w) eqn:Hc; cbn.
  - destruct (service w _ _) as [m|[desc rows]] eqn:Hs; cbn.
    + eexists. split; [reflexivity|]. cbn. split; [reflexivity|].
      split; [discriminate|]. intros _. split; [reflexivity|].
      split; [discriminate|]. split; [|discriminate].
      intros m' E. injection E as <-. now rewrite <- app_assoc.
    + destruct rows as [|[|a [|b [|c [|d r]]]] rest]; cbn;
        eexists; (split; [reflexivity|]); cbn; (split; [reflexivity|]);
        (split; [discriminate|]); intros _; (split; [reflexivity|]);
        (split; [|split; [discriminate|]]);
        try (intros ? ? ? ? ? E; discriminate E);
        try (intros ? E; discriminate E).
      * intros d0 E. now rewrite <- app_assoc.
      * intros d0 a0 b0 c0 r0 E. injection E as _ <- <- <- _.
        now rewrite <- !app_assoc.
  - eexists. split; [reflexivity|]. cbn. split; [reflexivity|].
    split; [auto|discriminate].
Qed.

Lemma display_never_raises_witness :
  exists w',
    display_snowflake_details Sample.world_docs = (Ret tt, w') /\
    executed w' = [details_cmd] /\
    ui w' = [UiWrite "**Warehouse**: COMPUTE_WH"; UiWrite "**Database**: DOCS_DB";
             UiWrite "**Schema**: PUBLIC"].
Proof.
  destruct (display_never_raises Sample.world_docs) as (w' & E & _ & _ & Hlive).
  destruct (Hlive eq_refl) as (Hx & Hrow & _).
  exists w'. split; [exact E|]. split; [exact Hx|].
  exact (Hrow _ _ _ _ _ eq_refl).
Defined.

(** X7. The document list raises nothing and leaves session state as it
    is. On a live cursor it executes LIST @docs and shows the first cell of
    every row; a rejected statement or a row with no cell ends in one
    error message. *)
Theorem list_docs_never_raises (w : world) :
  exists w',
    main_list_docs w = (Ret tt, w') /\
    session w' = session w /\
    executed w' = (executed w ++ if connected w then [list_cmd] else [])%list /\
    (forall desc rows,
       connected w = true ->
       service w (length (executed w)) list_cmd = ExecOk (mkResult desc rows) ->
       Forall (fun r => r <> []) rows ->
       ui w' = (ui w ++ [UiDataframe (map (fun r => hd CNull r) rows)])%list) /\
    (forall m,
       connected w = true ->
       service w (length (executed w)) list_cmd = ExecError m ->
       ui w' = (ui w ++ [UiError ("Error fetching documents: " ++ m)])%list).
Proof.
  assert (Hfirst : forall rows, Forall (fun r : row => r <> []) rows ->
            first_cells rows = Ret (map (fun r => hd CNull r) rows)).
  { induction rows as [|r rows IH]; intros Hall; [reflexivity|].
    inversion Hall as [|? ? Hr Hrest]; subst.
    destruct r as [|c r]; [contradiction|]. cbn. now rewrite IH. }
  unfold main_list_docs. unfold_m. cbn.
  destruct (connected w) eqn:Hc; cbn.
  - destruct (service w _ _) as [m|[desc rows]] eqn:Hs; cbn.
    + eexists. split; [reflexivity|]. cbn. split; [reflexivity|].
      split; [reflexivity|]. split; [discriminate|].
      intros m' _ E. now injection E as <-.
    + destruct (first_cells rows) as [l|e] eqn:Hf; cbn;
        eexists; (split; [reflexivity|]); cbn; (split; [reflexivity|]);
        (split; [reflexivity|]); (split; [|discriminate]);
        intros d r _ E Hall; injection E as <- <-;
        rewrite (Hfirst _ Hall) in Hf; [now injection Hf as <-|discriminate].
  - eexists. split; [reflexivity|]. cbn. rewrite app_nil_r.
    split; [reflexivity|]. split; [reflexivity|]. split; discriminate.
Qed.

Lemma list_docs_never_raises_witness :
  exists w',
    main_list_docs Sample.world_docs = (Ret tt, w') /\
    ui w' = [UiDataframe [CStr "docs/a.pdf"; CStr "docs/b.pdf"]].
Proof.
  destruct (list_docs_never_raises Sample.world_docs) as (w' & E & _ & _ & Hrows & _).
  exists w'. split; [exact E|].
  apply (Hrows _ _ eq_refl eq_refl). repeat constructor; discriminate.
Defined.

(** ** A run without a question *)

(** X8. A run of [main] with no question raises nothing, whatever the
    connection and the service do; it leaves the conversation of the
    session as it was, an empty one if the session had none, and an empty
    one after Start Over, however long it was. *)
Theorem main_without_question (i : inputs) (w : world) :
  in_chat_input i = None ->
  exists w',
    main i w = (Ret tt, w') /\
    messages (session w') = Some (kept_messages (in_widgets i) (session w)) /\
    (w_clear_conversation (in_widgets i) = true -> messages (session w') = Some []) /\
    (messages (session w) = None -> messages (session w') = Some []).
Proof.
  intros Hq.
  destruct (main_reaches_turn i w) as (w5 & -> & Hm & _).
  rewrite Hq. exists w5. split; [reflexivity|]. split; [exact Hm|].
  rewrite Hm. unfold kept_messages, session_msgs.
  split; [intros ->; reflexivity|].
  intros ->. now destruct (w_clear_conversation (in_widgets i)).
Qed.

Lemma main_without_question_witness :
  exists w',
    main (Sample.redraw true) Sample.world_three = (Ret tt, w') /\
    messages (session w') =
      Some (kept_messages (in_widgets (Sample.redraw true)) (session Sample.world_three)) /\
    (w_clear_conversation (in_widgets (Sample.redraw true)) = true ->
     messages (session w') = Some []) /\
    (messages (session Sample.world_three) = None -> messages (session w') = Some []).
Proof.
  exact (main_without_question (Sample.redraw true) Sample.world_three eq_refl).
Defined.

(** X9. A run of [main] gives the cursor at most five statements: the
    connection details and the document list first, then at most three for
    the turn. With no cursor it executes none; with no question, the first
    two only. *)
Theorem main_statement_bound (i : inputs) (w : world) :
  exists stmts,
    executed (snd (main i w)) = (executed w ++ stmts)%list /\
    (length stmts <= 5)%nat /\
    (connected w = false -> stmts = []) /\
    (connected w = true -> firstn 2 stmts = [details_cmd; list_cmd]) /\
    (connected w = true -> in_chat_input i = None -> stmts = [details_cmd; list_cmd]).
Proof.
  destruct (main_trace i w) as (turn & Hx & Hturn).
  exists (if connected w then details_cmd :: list_cmd :: turn else []).
  split; [exact Hx|].
  assert (Hlen : (length turn <= 3)%nat).
  { destruct (in_chat_input i) as [question|]; [|subst; cbn; lia].
    destruct (PyStr.truthy question); [|subst; cbn; lia].
    destruct Hturn as (retrieval & m & p & [->|(m' & hp & s & _ & ->)] & ->);
      cbn; lia. }
  destruct (connected w); cbn [length].
  - split; [lia|]. split; [discriminate|]. split; [reflexivity|].
    intros _ Hq. rewrite Hq in Hturn. now subst.
  - split; [lia|]. split; [reflexivity|]. split; discriminate.
Qed.

Lemma main_statement_bound_witness :
  exists stmts,
    executed (snd (main (Sample.redraw false) Sample.world_docs)) = stmts /\
    stmts = [details_cmd; list_cmd].
Proof.
  destruct (main_statement_bound (Sample.redraw false) Sample.world_docs)
    as (stmts & Hx & _ & _ & _ & Hnone).
  exists stmts. split; [exact Hx|]. exact (Hnone eq_refl eq_refl).
Defined.

(** ** A turn the model answers *)

Lemma frame_of_result (rows : list row) (cols : list string) (df : DataFrame) :
  pd_DataFrame rows cols = Ret df -> df = mkFrame cols rows.
Proof.
  unfold pd_DataFrame. intros H.
  match type of H with (if ?b then _ else _) = _ => destruct b end; congruence.
Qed.

(** When the model answers every completion with the same rows, [complete]
    returns them as a frame. *)
Lemma complete_answered (q : string) (w : world) (msgs : list message)
    (rs : result_set) (df : DataFrame) :
  messages (session w) = Some msgs ->
  connected w = true ->
  (forall n m p, service w n (complete_cmd m p) = ExecOk rs) ->
  pd_DataFrame (rs_rows rs) (rs_description rs) = Ret df ->
  df_empty df = false ->
  exists w', complete q w = (Ret (Some df), w') /\ session w' = session w.
Proof.
  intros Hm Hc Hsv Hdf Hne. unfold complete.
  unfold bind at 1. unfold st at 1. unfold try_except. unfold bind at 1.
  set (w0 := with_ui _ w).
  destruct (create_prompt_spec q w0 msgs Hm)
    as (hist & ctx & w2 & w1 & stmts & E & _ & _ & _ & _ & Hs & Hc1 & Hv & _).
  rewrite E. change (session w0) with (session w) in Hs.
  change (service w0) with (service w) in Hv.
  change (connected w0) with (connected w) in Hc1. rewrite Hc in Hc1.
  unfold_m. cbn. rewrite Hc1. cbn. rewrite Hv, Hsv. cbn.
  destruct rs as [cols rows]. cbn in Hdf |- *.
  pose proof (frame_of_result _ _ _ Hdf) as ->.
  destruct rows as [|row rows]; [destruct cols; discriminate Hne|].
  cbn. rewrite Hdf. cbn. eexists. split; [reflexivity|exact Hs].
Qed.

Lemma main_answer_appends (df : DataFrame) (answer : string) (w : world)
    (msgs : list message) :
  messages (session w) = Some msgs ->
  df_empty df = false ->
  df_iloc0_getitem df "RESPONSE" = Ret (CStr answer) ->
  exists w',
    main_answer (Some df) w = (Ret tt, w') /\
    messages (session w') =
      Some (msgs ++ [mkMessage assistant (PyStr.replace PyStr.quote "" answer)])%list /\
    ui w' = (ui w ++ [UiMarkdown (PyStr.replace PyStr.quote "" answer)])%list.
Proof.
  intros Hm Hne Hg. unfold main_answer. rewrite Hne. cbn [negb].
  unfold_m. unfold_m. cbn. rewrite Hg. cbn. unfold cell_replace. cbn.
  rewrite Hm. cbn. eexists. split; [reflexivity|]. cbn. auto.
Qed.

Lemma main_turn_answered (question answer : string) (w : world) (msgs : list message)
    (rs : result_set) (df : DataFrame) :
  messages (session w) = Some msgs ->
  PyStr.truthy question = true ->
  connected w = true ->
  (forall n m p, service w n (complete_cmd m p) = ExecOk rs) ->
  pd_DataFrame (rs_rows rs) (rs_description rs) = Ret df ->
  df_empty df = false ->
  df_iloc0_getitem df "RESPONSE" = Ret (CStr answer) ->
  exists w',
    main_turn (Some question) w = (Ret tt, w') /\
    messages (session w') =
      Some (msgs ++ [mkMessage user question;
                     mkMessage assistant (PyStr.replace PyStr.quote "" answer)])%list /\
    In (UiMarkdown (PyStr.replace PyStr.quote "" answer)) (ui w').
Proof.
  intros Hm Ht Hc Hsv Hdf Hne Hg.
  unfold main_turn. rewrite Ht.
  unfold bind at 1. unfold messages_append, session_messages, get_session.
  unfold bind at 1. unfold bind at 1. rewrite Hm. unfold ret at 1.
  unfold set_messages at 1.
  do 3 (unfold bind at 1; unfold st at 1).
  unfold bind at 1. unfold bind at 1. unfold st at 1. unfold bind at 1.
  match goal with |- context [complete ?q ?w0] =>
    destruct (complete_answered q w0 (msgs ++ [mkMessage user question])
                rs df eq_refl Hc Hsv Hdf Hne)
      as (w1 & E & Hs);
    rewrite E
  end.
  cbn in Hs.
  destruct (main_answer_appends df answer w1 (msgs ++ [mkMessage user question])
              ltac:(rewrite Hs; reflexivity) Hne Hg)
    as (w' & Ea & Hma & Hui).
  exists w'. split; [exact Ea|]. split; [now rewrite Hma, <- app_assoc|].
  rewrite Hui. apply in_or_app. right. now left.
Qed.

(** X10. In a run of [main] with a question on a live cursor, when the
    model answers every completion with a frame whose first row has a text
    in RESPONSE, the run raises nothing and the conversation grows by
    exactly two messages: the question as the user typed it, then the
    answer without its single quotes. What the similarity search did does
    not matter. *)
Theorem answered_turn_appends_both (i : inputs) (w : world) (question answer : string)
    (rs : result_set) (df : DataFrame) :
  in_chat_input i = Some question ->
  PyStr.truthy question = true ->
  connected w = true ->
  (forall n m p, service w n (complete_cmd m p) = ExecOk rs) ->
  pd_DataFrame (rs_rows rs) (rs_description rs) = Ret df ->
  df_empty df = false ->
  df_iloc0_getitem df "RESPONSE" = Ret (CStr answer) ->
  exists w',
    main i w = (Ret tt, w') /\
    messages (session w') =
      Some (kept_messages (in_widgets i) (session w) ++
            [mkMessage user question;
             mkMessage assistant (PyStr.replace PyStr.quote "" answer)])%list /\
    In (UiMarkdown (PyStr.replace PyStr.quote "" answer)) (ui w').
Proof.
  intros Hq Ht Hc Hsv Hdf Hne Hg.
  destruct (main_reaches_turn i w) as (w5 & -> & Hm & _ & Hc5 & Hv5).
  rewrite Hq.
  apply (main_turn_answered question answer w5 _ rs df Hm Ht); try assumption.
  - congruence.
  - intros n m p. rewrite Hv5. apply Hsv.
Qed.

Lemma service_model_answers (n : nat) (m p : string) :
  Sample.service_model n (complete_cmd m p) = ExecOk Sample.model_answer.
Proof. reflexivity. Qed.

Lemma answered_turn_appends_both_witness :
  exists w',
    main (Sample.ask "What's X?") (start_world initial_session [] Sample.env_model) =
      (Ret tt, w') /\
    messages (session w') =
      Some [mkMessage user "What's X?"; mkMessage assistant "Its made of oak."] /\
    In (UiMarkdown "Its made of oak.") (ui w').
Proof.
  exact (answered_turn_appends_both (Sample.ask "What's X?")
           (start_world initial_session [] Sample.env_model)
           "What's X?" "It's made of oak." Sample.model_answer
           (mkFrame ["RESPONSE"] [[CStr "It's made of oak."]])
           eq_refl eq_refl eq_refl service_model_answers eq_refl eq_refl eq_refl).
Defined.

Lemma answered_app_pair (msgs : list message) (q a : string) :
  answered msgs = true ->
  answered (msgs ++ [mkMessage user q; mkMessage assistant a]) = true.
Proof.
  unfold answered.
  assert (H : forall n l, (length l <= n)%nat ->
            alternating l = true -> Nat.even (length l) = true ->
            alternating (l ++ [mkMessage user q; mkMessage assistant a]) = true).
  { induction n as [|n IH]; intros l Hl Ha He.
    - destruct l; [reflexivity|cbn in Hl; lia].
    - destruct l as [|x [|y l]]; [reflexivity|discriminate He|].
      cbn [app alternating] in *.
      destruct (role_eqb (msg_role x) user); [|discriminate].
      destruct (role_eqb (msg_role y) assistant); [|discriminate].
      cbn [andb] in *. apply IH; [cbn in Hl; lia|exact Ha|exact He]. }
  intros Hab. apply andb_true_iff in Hab. destruct Hab as (Ha & He).
  rewrite (H (length msgs) msgs (le_n _) Ha He). cbn [andb].
  rewrite length_app. cbn [length]. rewrite Nat.add_comm. exact He.
Qed.

(** X11. Answered turns keep the conversation well formed: if every
    question of the session has its answer, so it is after a run with a
    question that the model answers, and after Start Over followed by such
    a question the conversation is that one exchange. *)
Theorem answered_turn_keeps_alternation (s : session_state) (e : environment)
    (i : inputs) (question answer : string) (rs : result_set) (df : DataFrame) :
  answered (session_msgs s) = true ->
  in_chat_input i = Some question ->
  PyStr.truthy question = true ->
  env_connected e = true ->
  (forall n m p, env_service e n (complete_cmd m p) = ExecOk rs) ->
  pd_DataFrame (rs_rows rs) (rs_description rs) = Ret df ->
  df_empty df = false ->
  df_iloc0_getitem df "RESPONSE" = Ret (CStr answer) ->
  answered (session_msgs (script_run e i s)) = true /\
  alternating (session_msgs (script_run e i s)) = true /\
  (w_clear_conversation (in_widgets i) = true ->
   session_msgs (script_run e i s) =
     [mkMessage user question;
      mkMessage assistant (PyStr.replace PyStr.quote "" answer)]).
Proof.
  intros Hans Hq Ht Hc Hsv Hdf Hne Hg.
  unfold script_run.
  destruct (main_reaches_turn i (start_world s [] e)) as (w5 & -> & Hm5 & _ & Hc5 & Hv5).
  rewrite Hq.
  destruct (main_turn_answered question answer w5 _ rs df Hm5 Ht) as (w' & E & Hm & _);
    try assumption.
  { rewrite Hc5. exact Hc. }
  { intros n m p. rewrite Hv5. apply Hsv. }
  rewrite E. cbn [snd]. unfold session_msgs at 1 2 3. rewrite Hm.
  cbn [start_world session].
  assert (Hk : answered (kept_messages (in_widgets i) s) = true).
  { unfold kept_messages. now destruct (w_clear_conversation (in_widgets i)). }
  pose proof (answered_app_pair _ question (PyStr.replace PyStr.quote "" answer) Hk) as Hok.
  split; [exact Hok|]. split; [now apply andb_true_iff in Hok|].
  intros Hclear. unfold kept_messages. now rewrite Hclear.
Qed.

Lemma answered_turn_keeps_alternation_witness :
  answered (session_msgs (script_run Sample.env_model (Sample.ask "What's X?")
                            Sample.session_answered)) = true /\
  alternating (session_msgs (script_run Sample.env_model (Sample.ask "What's X?")
                               Sample.session_answered)) = true /\
  (w_clear_conversation (in_widgets (Sample.ask "What's X?")) = true ->
   session_msgs (script_run Sample.env_model (Sample.ask "What's X?")
                   Sample.session_answered) =
     [mkMessage user "What's X?";
      mkMessage assistant (PyStr.replace PyStr.quote "" "It's made of oak.")]).
Proof.
  exact (answered_turn_keeps_alternation Sample.session_answered Sample.env_model
           (Sample.ask "What's X?") "What's X?" "It's made of oak." Sample.model_answer
           (mkFrame ["RESPONSE"] [[CStr "It's made of oak."]])
           eq_refl eq_refl eq_refl eq_refl service_model_answers eq_refl eq_refl eq_refl).
Defined.

(** ** The upload with both arguments *)

(** X12. Called with the file and a live cursor, when the scratch file
    can be created and written, [upload_to_snowflake] returns with the
    scratch file gone and exactly one statement executed, the PUT of that
    file; it then shows the success with the file name, or the error of
    the service when the PUT was rejected. *)
Theorem upload_cleans_up (f : uploaded_file) (w : world) (p : string) :
  tmp_path (tmp w) = Some p ->
  tmp_write_ok (tmp w) = true ->
  exists w',
    upload_to_snowflake (PUploaded f) PCursor w = (Ret tt, w') /\
    disk_exists p (disk w') = false /\
    executed w' = (executed w ++ [put_command_of p])%list /\
    (forall rs,
       service w (length (executed w)) (put_command_of p) = ExecOk rs ->
       ui w' = (ui w ++ [UiSuccess ("File '" ++ uf_name f ++
                  "' successfully uploaded to stage @ARYAN_GUPTA_DB.DATA.DOCS.")])%list) /\
    (forall m,
       service w (length (executed w)) (put_command_of p) = ExecError m ->
       ui w' = (ui w ++ [UiError ("Error uploading file to Snowflake: " ++ m)])%list).
Proof.
  intros Hp Hw. unfold upload_to_snowflake, NamedTemporaryFile, file_write,
    assign_temp_file_path, read_temp_file_path, os_remove, os_path_exists.
  unfold_m. cbn. rewrite Hp. cbn. rewrite Hw. cbn.
  destruct (service w _ _) eqn:Hs; cbn;
    repeat (rewrite ?disk_exists_new, ?disk_remove_new, ?disk_exists_remove; cbn);
    eexists; (split; [reflexivity|]); cbn;
    rewrite ?disk_exists_remove; (split; [reflexivity|]); (split; [reflexivity|]).
  - split; [discriminate|]. intros m E. now injection E as <-.
  - split; [reflexivity|discriminate].
Qed.

Lemma upload_cleans_up_witness :
  exists w',
    upload_to_snowflake (PUploaded Sample.report) PCursor Sample.world_upload_ok =
      (Ret tt, w') /\
    disk_exists "/tmp/tmpab12" (disk w') = false /\
    executed w' = [put_command_of "/tmp/tmpab12"] /\
    ui w' = [UiSuccess "File 'report.pdf' successfully uploaded to stage @ARYAN_GUPTA_DB.DATA.DOCS."].
Proof.
  destruct (upload_cleans_up Sample.report Sample.world_upload_ok "/tmp/tmpab12"
              eq_refl eq_refl) as (w' & E & Hd & Hx & Hok & _).
  exists w'. split; [exact E|]. split; [exact Hd|]. split; [exact Hx|].
  exact (Hok _ eq_refl).
Defined.

(** X13. With a falsy cursor argument [upload_to_snowflake] only shows
    that there is no connection: no scratch file is made and nothing is
    executed. When the scratch file cannot be created, the error is shown,
    nothing is executed and no file is made, but the call ends in an
    UnboundLocalError of the [finally] block instead of returning. *)
Theorem upload_without_scratch_file (f : uploaded_file) (w : world) :
  upload_to_snowflake (PUploaded f) PNone w =
    (Ret tt,
     with_ui (ui w ++ [UiError "No connection to Snowflake for file upload."])
       (with_local None w)) /\
  (tmp_path (tmp w) = None ->
   exists w',
     upload_to_snowflake (PUploaded f) PCursor w =
       (Raise (mkExn UnboundLocalError
          "cannot access local variable 'temp_file_path' where it is not associated with a value"),
        w') /\
     disk w' = disk w /\
     executed w' = executed w /\
     ui w' = (ui w ++ [UiError
       "Error uploading file to Snowflake: No usable temporary directory found"])%list).
Proof.
  split; [reflexivity|].
  intros Hp. unfold upload_to_snowflake, NamedTemporaryFile, file_write,
    assign_temp_file_path, read_temp_file_path, os_remove, os_path_exists.
  unfold_m. cbn. rewrite Hp. cbn.
  eexists. split; [reflexivity|]. cbn. auto.
Qed.

Lemma upload_without_scratch_file_witness :
  exists w',
    upload_to_snowflake (PUploaded Sample.report) PCursor Sample.world_chunks =
      (Raise (mkExn UnboundLocalError
         "cannot access local variable 'temp_file_path' where it is not associated with a value"),
       w') /\
    disk w' = disk Sample.world_chunks /\
    executed w' = executed Sample.world_chunks /\
    ui w' = (ui Sample.world_chunks ++ [UiError
      "Error uploading file to Snowflake: No usable temporary directory found"])%list.
Proof.
  exact (proj2 (upload_without_scratch_file Sample.report Sample.world_chunks) eq_refl).
Defined.

(** ** The summarisation statement *)

Lemma summary_prompt_quotes (a b : string) :
  PyStr.count PyStr.quote (summary_prompt a b) =
  (PyStr.count PyStr.quote a + PyStr.count PyStr.quote b)%nat.
Proof.
  unfold summary_prompt. rewrite !count_app. cbn. lia.
Qed.

(** X14. On a live cursor [summarize_question_with_history] executes one
    statement, in which every single quote of the history and of the
    question is doubled; whatever the model answers, the summary it
    returns has no single quote, and session state is as before. *)
Theorem summarize_statement (h : list string) (q : string) (w : world) :
  connected w = true ->
  exists s w',
    summarize_question_with_history h q w = (Ret s, w') /\
    executed w' = (executed w ++ [summary_cmd (model_name (session w)) h q])%list /\
    PyStr.count PyStr.quote (summary_cmd (model_name (session w)) h q) =
      (4 + PyStr.count PyStr.quote (model_name (session w)) +
       2 * PyStr.count PyStr.quote (PyStr.join " " h) +
       2 * PyStr.count PyStr.quote q)%nat /\
    PyStr.mem PyStr.quote s = false /\
    session w' = session w.
Proof.
  intros Hc.
  destruct (summarize_trace h q w) as (s & w' & E & Hq & Hx & Hs & _).
  rewrite Hc in Hx. exists s, w'.
  split; [exact E|]. split; [exact Hx|]. split; [|auto].
  unfold summary_cmd.
  rewrite complete_cmd_quotes, summary_prompt_quotes, !count_replace_doubled. lia.
Qed.

Lemma summarize_statement_witness :
  exists s w',
    summarize_question_with_history ["it's"; "b"] "What's X?" Sample.world_chunks = (Ret s, w') /\
    executed w' =
      (executed Sample.world_chunks ++
       [summary_cmd (model_name (session Sample.world_chunks)) ["it's"; "b"] "What's X?"])%list /\
    PyStr.count PyStr.quote
      (summary_cmd (model_name (session Sample.world_chunks)) ["it's"; "b"] "What's X?") =
      (4 + PyStr.count PyStr.quote (model_name (session Sample.world_chunks)) +
       2 * PyStr.count PyStr.quote (PyStr.join " " ["it's"; "b"]) +
       2 * PyStr.count PyStr.quote "What's X?")%nat /\
    PyStr.mem PyStr.quote s = false /\
    session w' = session Sample.world_chunks.
Proof.
  exact (summarize_statement ["it's"; "b"] "What's X?" Sample.world_chunks eq_refl).
Defined.

(** ** A question without a connection *)

Lemma complete_no_cursor (q : string) (w : world) (msgs : list message) :
  messages (session w) = Some msgs ->
  connected w = false ->
  exists w',
    complete q w = (Ret None, w') /\ session w' = session w /\
    executed w' = executed w /\
    In (UiError "Error in completing the request: 'NoneType' object has no attribute 'execute'")
       (ui w').
Proof.
  intros Hm Hc. unfold complete.
  unfold bind at 1. unfold st at 1. unfold try_except. unfold bind at 1.
  set (w0 := with_ui _ w).
  destruct (create_prompt_spec q w0 msgs Hm)
    as (hist & ctx & w2 & w1 & stmts & E & _ & _ & _ & Hx & Hs & Hc1 & _).
  rewrite E. change (session w0) with (session w) in Hs.
  change (connected w0) with (connected w) in Hx, Hc1.
  change (executed w0) with (executed w) in Hx.
  rewrite Hc in Hx, Hc1. rewrite app_nil_r in Hx.
  unfold_m. cbn. rewrite Hc1. cbn.
  eexists. split; [reflexivity|]. cbn. split; [exact Hs|]. split; [exact Hx|].
  apply in_or_app. right. now left.
Qed.

(** X15. When the connection could not be made, a run of [main] with a
    question executes nothing, shows the errors of the steps that need
    the cursor, and ends in the UnboundLocalError on [res_text]: the
    conversation ends with the question. *)
Theorem question_without_connection (i : inputs) (w : world) (question : string) :
  in_chat_input i = Some question ->
  PyStr.truthy question = true ->
  connected w = false ->
  exists w',
    main i w =
      (Raise (mkExn UnboundLocalError
         "cannot access local variable 'res_text' where it is not associated with a value"),
       w') /\
    executed w' = executed w /\
    messages (session w') =
      Some (kept_messages (in_widgets i) (session w) ++ [mkMessage user question])%list /\
    In (UiError "Error in completing the request: 'NoneType' object has no attribute 'execute'")
       (ui w').
Proof.
  intros Hq Ht Hc.
  destruct (main_reaches_turn i w) as (w5 & -> & Hm & Hx5 & Hc5 & _).
  rewrite Hc in Hx5, Hc5. rewrite app_nil_r in Hx5.
  rewrite Hq. unfold main_turn. rewrite Ht.
  unfold bind at 1. unfold messages_append, session_messages, get_session.
  unfold bind at 1. unfold bind at 1. rewrite Hm. unfold ret at 1.
  unfold set_messages at 1.
  do 3 (unfold bind at 1; unfold st at 1).
  unfold bind at 1. unfold bind at 1. unfold st at 1. unfold bind at 1.
  match goal with |- context [complete ?q ?w0] =>
    destruct (complete_no_cursor q w0
                (kept_messages (in_widgets i) (session w) ++ [mkMessage user question])
                eq_refl Hc5)
      as (w1 & E & Hs & Hx & Hui);
    rewrite E
  end.
  cbn in Hs, Hx.
  eexists. split; [reflexivity|]. cbn. rewrite Hs, Hx. cbn.
  split; [exact Hx5|]. split; [reflexivity|].
  apply in_or_app. left. apply in_or_app. left. exact Hui.
Qed.

Lemma question_without_connection_witness :
  exists w',
    main (Sample.ask "X?")
         Sample.world_offline =
      (Raise (mkExn UnboundLocalError
         "cannot access local variable 'res_text' where it is not associated with a value"),
       w') /\
    executed w' = [] /\
    messages (session w') = Some [mkMessage user "X?"] /\
    In (UiError "Error in completing the request: 'NoneType' object has no attribute 'execute'")
       (ui w').
Proof.
  exact (question_without_connection (Sample.ask "X?")
           Sample.world_offline "X?" eq_refl eq_refl eq_refl).
Defined.

(** ** The similarity search and the turn *)

(** C6, as amended. On a live cursor [get_similar_chunks] gives the
    service one statement, the text below around the question: it ranks
    the chunks by the cosine similarity of their vectors to the embedding
    of the question, in descending order, and keeps the top 3. It returns
    the chunk texts joined with no separator, where a chunk that is a lone
    single quote counts as the empty string. When no row comes back it
    returns the empty string. With a service that finds no row for a
    similarity search, whatever the history, the context segment of the
    prompt is empty and [complete] goes on to the completion statement with
    that prompt; and when the model answers, the run of [main] ends
    normally with the question and the answer appended. *)
Theorem get_similar_chunks_result (q : string) (w : world) :
  connected w = true ->
  similar_chunks_cmd q =
    "
        WITH results AS (
            SELECT RELATIVE_PATH, 
            VECTOR_COSINE_SIMILARITY(docs_chunks_table.chunk_vec, 
            SNOWFLAKE.CORTEX.EMBED_TEXT_768('e5-base-v2', '" ++ q ++ "')) AS similarity, 
            chunk
            FROM docs_chunks_table
            ORDER BY similarity DESC
            LIMIT 3
        )
        SELECT chunk, relative_path FROM results
    " /\
  (exists s w',
     get_similar_chunks q w = (Ret s, w') /\
     executed w' = (executed w ++ [similar_chunks_cmd q])%list) /\
  (forall cols rows i chunks,
     service w (length (executed w)) (similar_chunks_cmd q) = ExecOk (mkResult cols rows) ->
     forallb (fun r => length r =? length cols)%nat rows = true ->
     column_index "CHUNK" cols = Some i ->
     map (fun r => nth i r CNull) rows = map CStr chunks ->
     fst (get_similar_chunks q w) =
     Ret (PyStr.join "" (map (whole_value_replace "'" "") chunks))) /\
  (forall cols,
     service w (length (executed w)) (similar_chunks_cmd q) = ExecOk (mkResult cols []) ->
     fst (get_similar_chunks q w) = Ret "") /\
  ((forall n s, exists cols,
      service w n (similar_chunks_cmd s) = ExecOk (mkResult cols [])) ->
   (forall msgs,
      messages (session w) = Some msgs ->
      fst (create_prompt q w) =
        Ret (prompt_text
               (history_str (unicode_printable w) (history_of (session w) msgs)) "" q) /\
      exists r w' stmts,
        complete q w = (Ret r, w') /\
        retrieval_statements q stmts /\
        executed w' =
          (executed w ++ stmts ++
           [complete_cmd (model_name (session w))
              (PyStr.replace PyStr.quote "''"
                 (prompt_text
                    (history_str (unicode_printable w) (history_of (session w) msgs))
                    "" q))])%list) /\
   (forall i question answer rs df,
      in_chat_input i = Some question ->
      PyStr.truthy question = true ->
      (forall n m p, service w n (complete_cmd m p) = ExecOk rs) ->
      pd_DataFrame (rs_rows rs) (rs_description rs) = Ret df ->
      df_empty df = false ->
      df_iloc0_getitem df "RESPONSE" = Ret (CStr answer) ->
      exists w',
        main i w = (Ret tt, w') /\
        messages (session w') =
          Some (kept_messages (in_widgets i) (session w) ++
                [mkMessage user question;
                 mkMessage assistant (PyStr.replace PyStr.quote "" answer)])%list)).
Proof.
  intros Hc.
  split; [reflexivity|]. split; [|split; [|split]].
  - destruct (get_similar_chunks_trace q w) as (s & w' & E & Hx & _).
    rewrite Hc in Hx. eauto.
  - intros cols rows i chunks. now apply get_similar_chunks_rows.
  - intros cols Hs. exact (get_similar_chunks_no_rows q w cols Hc Hs).
  - intros H0. split.
    + intros msgs Hm.
      destruct (create_prompt_no_rows q w msgs Hm Hc H0) as (w1 & stmts1 & E & _).
      destruct (create_prompt_no_rows q
                  (snd (st (UiWrite ("Creating prompt for question: " ++ q)) w))
                  msgs Hm Hc H0)
        as (w0 & stmts & E0 & Hr & Hx0 & Hs0 & Hc0).
      destruct (complete_statement q w _ _ E0 Hc0) as (r & w' & Ec & Hxc).
      rewrite E. split; [reflexivity|]. exists r, w', stmts.
      split; [exact Ec|]. split; [exact Hr|].
      rewrite Hxc, Hx0, Hs0, <- app_assoc. reflexivity.
    + intros i question answer rs df Hq Ht Hsv Hdf Hne Hg.
      destruct (main_reaches_turn i w) as (w5 & -> & Hm & _ & Hc5 & Hv5).
      rewrite Hq.
      destruct (main_turn_answered question answer w5 _ rs df Hm Ht) as (w' & E & Hmsg & _);
        try assumption.
      { congruence. }
      { intros n m p. rewrite Hv5. apply Hsv. }
      exists w'. split; [exact E|exact Hmsg].
Qed.

Lemma get_similar_chunks_result_witness :
  connected Sample.world_chunks = true /\
  fst (get_similar_chunks "X" Sample.world_chunks) = Ret "it's ab'c" /\
  fst (get_similar_chunks "X" Sample.world_no_rows) = Ret "" /\
  fst (create_prompt "X" Sample.world_no_rows) =
    Ret (prompt_text
           (history_str (unicode_printable Sample.world_no_rows)
              (history_of (session Sample.world_no_rows) Sample.three_messages)) "" "X").
Proof.
  split; [reflexivity|]. split; [|split].
  - apply (proj1 (proj2 (proj2
      (get_similar_chunks_result "X" Sample.world_chunks eq_refl)))
      ["CHUNK"; "RELATIVE_PATH"] Sample.chunk_rows 0%nat ["it's a"; "'"; "b'c"]);
      reflexivity.
  - apply (proj1 (proj2 (proj2 (proj2
      (get_similar_chunks_result "X" Sample.world_no_rows eq_refl))))
      ["CHUNK"; "RELATIVE_PATH"] eq_refl).
  - apply (proj1 (proj2 (proj2 (proj2 (proj2
      (get_similar_chunks_result "X" Sample.world_no_rows eq_refl))))
      (fun _ _ => ex_intro _ ["CHUNK"; "RELATIVE_PATH"] eq_refl))
      Sample.three_messages eq_refl).
Defined.
